(** * make_feed.py: source normalisation, deduplication and feed assembly

    A shallow embedding of [make_feed.py] and the properties of its
    extraction / deduplication / ordering pipeline.

    Python values are modelled as follows.
    - [str]            : [string]; [s[:80]] is [String.substring 0 80 s].
    - [None] or a str  : [option string]; truthiness is [truthy].
    - [dict] with string keys (a source's configuration, the feed metadata,
      the [seen] dictionary) : [gmap string _].
    - [datetime]       : a wall-clock reading together with an optional UTC
      offset ([tzinfo]); ordering a naive against an aware value raises
      [TypeError], as in CPython.
    - a BeautifulSoup tree : [node].
    - exceptions       : the [Raised] outcome of the monad [M], which threads
      the [world] (files, the two output streams, the clock). *)

From Stdlib Require Import ZArith Ascii String.
From stdpp Require Import base option list sorting strings pretty gmap.

Local Open Scope Z_scope.
Set Warnings "-clear-no-such-hyp".

(** ** Python truthiness on [None]-or-[str] values *)

Module Py.

Definition truthy (o : option string) : bool :=
  match o with
  | Some s => negb (String.eqb s "")
  | None => false
  end.

(** [a or b] where both sides may be [None]. *)
Definition or_ (a b : option string) : option string :=
  if truthy a then a else b.

(** [a or d] where [d] is a [str]: the result is a [str]. *)
Definition or_str (a : option string) (d : string) : string :=
  match a with
  | Some s => if String.eqb s "" then d else s
  | None => d
  end.

(** [str(x)] inside an f-string, for a value that may be [None]. *)
Definition str (o : option string) : string := default "None" o.

(** [s[:n]] for [n >= 0]. *)
Definition prefix (n : nat) (s : string) : string := String.substring 0 n s.

(** [l[:k]] on a list, for any integer [k] (a negative [k] counts from the
    end). *)
Definition slice_to {A} (k : Z) (l : list A) : list A :=
  if 0 <=? k then take (Z.to_nat k) l
  else take (length l - Z.to_nat (- k))%nat l.

(** [str.strip()] restricted to the ASCII white space characters. *)
Definition is_space (c : ascii) : bool :=
  let n := nat_of_ascii c in
  ((9 <=? n) && (n <=? 13) || (28 <=? n) && (n <=? 32))%nat.

Fixpoint lstrip (s : string) : string :=
  match s with
  | String c r => if is_space c then lstrip r else s
  | EmptyString => EmptyString
  end.

Definition strip (s : string) : string :=
  String.rev (lstrip (String.rev (lstrip s))).

(** [sep.join(l)]. *)
Fixpoint join (sep : string) (l : list string) : string :=
  match l with
  | [] => ""
  | [s] => s
  | s :: r => s +:+ sep +:+ join sep r
  end.

End Py.

(** ** Exceptions *)

Inductive exn_class :=
  | ValueError | TypeError | AttributeError | OSError
  | RequestException | JSONDecodeError | YAMLError.

Record exn := Exn { exn_kind : exn_class; exn_msg : string }.

Inductive res (A : Type) :=
  | Ok (a : A)
  | Raised (e : exn).
Arguments Ok {A} a.
Arguments Raised {A} e.

Global Instance res_ret : MRet res := λ A a, Ok a.
Global Instance res_bind : MBind res := λ A B f r,
  match r with Ok a => f a | Raised e => Raised e end.
Global Instance res_fmap : FMap res := λ A B f r,
  match r with Ok a => Ok (f a) | Raised e => Raised e end.

Global Instance exn_class_eq_dec : EqDecision exn_class.
Proof. solve_decision. Defined.
Global Instance exn_eq_dec : EqDecision exn.
Proof. solve_decision. Defined.

(** ** [datetime] *)

(** [wall] counts the microseconds of the calendar fields from a fixed
    origin; [tzinfo] is [None] for a naive value and [Some off] for an aware
    one, [off] being the UTC offset in microseconds. *)
Record datetime := Datetime { wall : Z; tzinfo : option Z }.

Global Instance datetime_eq_dec : EqDecision datetime.
Proof. solve_decision. Defined.

Definition utc (t : Z) : datetime := Datetime t (Some 0).

Definition aware (d : datetime) : bool := bool_decide (tzinfo d ≠ None).

Definition naive_aware_msg : string :=
  "can't compare offset-naive and offset-aware datetimes".

(** [a < b] on datetimes: two naive values compare their calendar fields,
    two aware values compare the instants they denote, and a mixed pair
    raises [TypeError]. *)
Definition dt_lt (a b : datetime) : res bool :=
  match tzinfo a, tzinfo b with
  | None, None => Ok (wall a <? wall b)
  | Some oa, Some ob => Ok (wall a - oa <? wall b - ob)
  | _, _ => Raised (Exn TypeError naive_aware_msg)
  end.

(** [dt.replace(tzinfo=timezone.utc)] *)
Definition replace_tz_utc (d : datetime) : datetime := Datetime (wall d) (Some 0).

(** ** BeautifulSoup trees *)

#[warnings="-register-all"]
Inductive node :=
  | Text (s : string)
  | Tag (name : string) (attrs : list (string * string)) (contents : list node).

Module Soup.

(** All nodes below [n], in document order. *)
Fixpoint descendants (n : node) : list node :=
  match n with
  | Text _ => []
  | Tag _ _ ks => flat_map (fun k => k :: descendants k) ks
  end.

Definition tag_name (n : node) : option string :=
  match n with Tag nm _ _ => Some nm | Text _ => None end.

Definition named (names : list string) (n : node) : bool :=
  match n with
  | Tag nm _ _ => bool_decide (nm ∈ names)
  | Text _ => false
  end.

(** [n.get(attr)] *)
Fixpoint assoc (k : string) (l : list (string * string)) : option string :=
  match l with
  | [] => None
  | (k', v) :: r => if String.eqb k k' then Some v else assoc k r
  end.

Definition get (attr : string) (n : node) : option string :=
  match n with
  | Tag _ attrs _ => assoc attr attrs
  | Text _ => None
  end.

(** [n.find_all(names)] and [n.find(name)]: descendant tags by name. *)
Definition find_all (names : list string) (n : node) : list node :=
  List.filter (named names) (descendants n).

Definition find_any (names : list string) (n : node) : option node :=
  head (find_all names n).

Definition find (name : string) (n : node) : option node :=
  find_any [name] n.

(** [n.find(name, attr=val)] *)
Definition find_with (name attr val : string) (n : node) : option node :=
  head (List.filter (fun k => named [name] k && bool_decide (get attr k = Some val))
                    (descendants n)).

Definition strings (n : node) : list string :=
  omap (fun k => match k with Text s => Some s | Tag _ _ _ => None end)
       (descendants n).

(** [n.get_text(sep, strip=True)]: every string stripped, the empty ones
    left out, the rest joined with [sep]. *)
Definition get_text (sep : string) (n : node) : string :=
  Py.join sep (List.filter (fun s => negb (String.eqb s ""))
                           (Py.strip <$> strings n)).

End Soup.

(** ** Items, configuration and persisted state *)

(** The dictionary built for every extracted entry. *)
Record item := Item {
  title : string;
  link : string;
  guid : string;
  summary : string;
  date : datetime }.

Global Instance item_eq_dec : EqDecision item.
Proof. solve_decision. Defined.

(** The pre-parsed YAML configuration: every key is optional, and [None]
    stands for a key that is absent, so that [cfg.get(key, d)] is
    [default d]. A key that is present with the value [null] (on which
    [cfg.get] returns [None], not the default) is not represented. A source
    is a dictionary ([type], [name], [url] and the selector keys of an HTML
    source). *)
Record config := Config {
  cfg_state_file : option string;
  cfg_sources : option (list (gmap string string));
  cfg_limit : option Z;
  cfg_feed : option (gmap string string) }.

(** The dictionary kept in the state file: the [seen] key (when present) and
    whatever other keys the file holds. *)
Record state := State {
  st_seen : option (gmap string bool);
  st_rest : gmap string string }.

(** A parsed JSON document is such a dictionary or some other JSON value. *)
Inductive json_doc :=
  | JObject (st : state)
  | JValue.

(** ** The libraries and the outside world

    The calls that leave the program (network, parsers of the third-party
    libraries, the clock, serialisers) are the fields of [Env]. A parser that
    raises returns [None] (or [Raised e] where the message is printed). *)
Class Env := {
  (** [requests.get(url, ...)] followed by [raise_for_status()]: the text of
      the response *)
  requests_get : option string → res string;
  (** [BeautifulSoup(text, "xml")] and [BeautifulSoup(text, "lxml")] *)
  bs4_xml : string → node;
  bs4_lxml : string → node;
  (** [tag.select(selector)] *)
  css_select : string → node → list node;
  (** [urljoin(base, url)] for a non-empty [base], on the addresses for
      which it returns; the [ValueError] it raises on a malformed address is
      not represented *)
  urllib_urljoin : string → string → string;
  (** [dateutil.parser.parse(text)] *)
  dateutil_parse : string → option datetime;
  (** [datetime.strptime(text, format)] *)
  datetime_strptime : string → string → option datetime;
  (** the successive readings of the clock, in microseconds *)
  clock : nat → Z;
  yaml_safe_load : string → res config;
  json_load : string → res json_doc;
  json_dump : state → string;
  (** [email.utils.format_datetime] *)
  format_datetime : datetime → string;
  (** [ElementTree(root).write(...)]: the bytes written *)
  etree_write : node → string;
  (** whether [open(path, "w")] succeeds (the directory exists, the file may
      be written); it raises [OSError] otherwise *)
  open_w : string → bool }.

Record world := World {
  files : gmap string string;
  stderr : list string;
  stdout : list string;
  ticks : nat }.

(** ** The monad of the program: state and exceptions *)

Definition M (A : Type) : Type := world → res A * world.

Global Instance M_ret : MRet M := λ A a w, (Ok a, w).
Global Instance M_bind : MBind M := λ A B f m w,
  match m w with
  | (Ok a, w') => f a w'
  | (Raised e, w') => (Raised e, w')
  end.

Definition raise {A} (e : exn) : M A := λ w, (Raised e, w).

Definition lift {A} (r : res A) : M A := λ w, (r, w).

(** [try: body  except Exception as e: handler(e)] *)
Definition try_except {A} (body : M A) (handler : exn → M A) : M A := λ w,
  match body w with
  | (Ok a, w') => (Ok a, w')
  | (Raised e, w') => handler e w'
  end.

(** A [for] loop that appends to a list; [None] stands for [continue]. *)
Fixpoint collect {A B} (f : A → M (option B)) (l : list A) : M (list B) :=
  match l with
  | [] => mret []
  | a :: r =>
      o ← f a;
      bs ← collect f r;
      mret (match o with Some b => b :: bs | None => bs end)
  end.

(** A [for] loop that updates local variables. *)
Fixpoint for_fold {A S} (f : S → A → M S) (s : S) (l : list A) : M S :=
  match l with
  | [] => mret s
  | a :: r => s' ← f s a; for_fold f s' r
  end.

Section Program.
Context `{Env}.

(** *** Primitive effects *)

Definition path_exists (path : string) : M bool := λ w,
  (Ok (bool_decide (is_Some (files w !! path))), w).

Definition read_file (path : string) : M string := λ w,
  match files w !! path with
  | Some c => (Ok c, w)
  | None => (Raised (Exn OSError ("No such file or directory: " +:+ path)), w)
  end.

(** The updates of the world. *)
Definition put_file (path content : string) (w : world) : world :=
  World (<[path := content]> (files w)) (stderr w) (stdout w) (ticks w).

Definition log_err (s : string) (w : world) : world :=
  World (files w) (stderr w ++ [s]) (stdout w) (ticks w).

Definition log_out (s : string) (w : world) : world :=
  World (files w) (stderr w) (stdout w ++ [s]) (ticks w).

Definition tick (w : world) : world :=
  World (files w) (stderr w) (stdout w) (S (ticks w)).

Definition write_file (path content : string) : M unit := λ w,
  if open_w path then (Ok (), put_file path content w)
  else (Raised (Exn OSError ("No such file or directory: " +:+ path)), w).

(** [print(s, file=sys.stderr)] and [print(s)] *)
Definition eprint (s : string) : M unit := λ w, (Ok (), log_err s w).

Definition print (s : string) : M unit := λ w, (Ok (), log_out s w).

(** [datetime.now(timezone.utc)] *)
Definition now_utc : M datetime := λ w, (Ok (utc (clock (ticks w))), tick w).

(** *** The functions of make_feed.py *)

Definition rfc822 (dt : datetime) : string :=
  let dt := if bool_decide (tzinfo dt = None) then replace_tz_utc dt else dt in
  format_datetime dt.

Definition load_yaml (path : string) : M config :=
  text ← read_file path;
  lift (yaml_safe_load text).

Definition load_state (path : string) : M json_doc :=
  ex ← path_exists path;
  if ex : bool then
    text ← read_file path;
    lift (json_load text)
  else mret (JObject (State (Some ∅) ∅)).

Definition save_state (path : string) (st : state) : M unit :=
  write_file path (json_dump st).

Definition fetch (url : option string) : M string :=
  lift (requests_get url).

(** The loop over the date-bearing tags of an entry: the stripped text of
    the first tag that exists and has a non-empty text. *)
Fixpoint rss_date_text (tags : list string) (e : node) : option string :=
  match tags with
  | [] => None
  | tag :: rest =>
      match Soup.find tag e with
      | Some t =>
          if Py.truthy (Some (Soup.get_text "" t))
          then Some (Soup.get_text "" t)
          else rss_date_text rest e
      | None => rss_date_text rest e
      end
  end.

Definition rss_title (e : node) : option string :=
  match Soup.find "title" e with
  | Some t => Some (Soup.get_text "" t)
  | None => None
  end.

(** Lines 48-51: the first [link] element, its [href] or else its text. *)
Definition rss_first_link (e : node) : option string :=
  match Soup.find "link" e with
  | Some link_tag =>
      Py.or_ (Soup.get "href" link_tag) (Some (Soup.get_text "" link_tag))
  | None => None
  end.

(** Lines 73-76: only when no link was found, a [link] element with
    [rel="alternate"]. *)
Definition rss_link (e : node) : option string :=
  let link := rss_first_link e in
  if negb (Py.truthy link) then
    match Soup.find_with "link" "rel" "alternate" e with
    | Some alt => if Py.truthy (Soup.get "href" alt) then Soup.get "href" alt else link
    | None => link
    end
  else link.

Definition rss_guid (e : node) : option string :=
  match Soup.find "id" e with
  | Some t => Some (Soup.get_text "" t)
  | None =>
      match Soup.find "guid" e with
      | Some t => Some (Soup.get_text "" t)
      | None => None
      end
  end.

Definition rss_summary (e : node) : string :=
  match Soup.find_any ["summary"; "content"; "description"] e with
  | Some summary_el => Soup.get_text " " summary_el
  | None => ""
  end.

(** The body of the loop of [parse_rss]. *)
Definition rss_entry (e : node) : M item :=
  let title := rss_title e in
  let guid := rss_guid e in
  let summary := rss_summary e in
  let date_text := rss_date_text ["published"; "updated"; "pubDate"; "dc:date"; "date"] e in
  dt ← match date_text with
       | Some text =>
           match dateutil_parse text with
           | Some d => mret d
           | None => now_utc
           end
       | None => now_utc
       end;
  let link := rss_link e in
  let guid := Py.or_str (Py.or_ guid link) (Py.prefix 80 (Py.or_str title "")) in
  mret {| title := Py.or_str title "(untitled)";
          link := Py.or_str link "";
          guid := guid;
          summary := summary;
          date := dt |}.

Definition parse_rss (xml_text : string) : M (list item) :=
  let soup := bs4_xml xml_text in
  let entries := Soup.find_all ["entry"; "item"] soup in
  collect (λ e, it ← rss_entry e; mret (Some it)) entries.

(** [b.select_one(cfg.get(key)) if cfg.get(key) else None] *)
Definition select_opt (cfg : gmap string string) (key : string) (b : node)
  : option node :=
  if Py.truthy (cfg !! key) then head (css_select (default "" (cfg !! key)) b)
  else None.

Definition html_title (cfg : gmap string string) (b : node) : option string :=
  match select_opt cfg "title_selector" b with
  | Some title_el => Some (Soup.get_text " " title_el)
  | None => None
  end.

(** [urljoin(base, href)]: the library returns [href] itself for an empty
    base. *)
Definition urljoin (base : option string) (href : string) : string :=
  if Py.truthy base then urllib_urljoin (default "" base) href else href.

Definition html_link (url : option string) (cfg : gmap string string) (b : node)
  : option string :=
  match select_opt cfg "link_selector" b with
  | Some link_el =>
      let href := Soup.get "href" link_el in
      if Py.truthy href
      then Some (urljoin (Py.or_ (cfg !! "base_url") url) (default "" href))
      else None
  | None => None
  end.

Definition html_desc (cfg : gmap string string) (b : node) : string :=
  match select_opt cfg "description_selector" b with
  | Some desc_el => Soup.get_text " " desc_el
  | None => ""
  end.

(** Lines 117-119: the text handed to the date parser, when the date
    selector matched. *)
Definition html_date_text (cfg : gmap string string) (b : node) : option string :=
  match select_opt cfg "date_selector" b with
  | Some date_el =>
      let text :=
        if Py.truthy (cfg !! "date_attr")
        then Soup.get (default "" (cfg !! "date_attr")) date_el
        else None in
      if negb (Py.truthy text) then Some (Soup.get_text " " date_el) else text
  | None => None
  end.

(** Lines 113-128: [dt] before the fallback to the clock. An exception of
    either parser leaves [dt = None]. *)
Definition html_date (cfg : gmap string string) (b : node) : option datetime :=
  let text := html_date_text cfg b in
  if Py.truthy text then
    if Py.truthy (cfg !! "date_format")
    then datetime_strptime (default "" text) (default "" (cfg !! "date_format"))
    else dateutil_parse (default "" text)
  else None.

(** The body of the loop of [parse_html]; [None] is the [continue] of a
    block with neither title nor link. *)
Definition html_block (url : option string) (cfg : gmap string string) (b : node)
  : M (option item) :=
  let title := html_title cfg b in
  let link := html_link url cfg b in
  let desc := html_desc cfg b in
  dt ← match html_date cfg b with
       | Some d => mret d
       | None => now_utc
       end;
  if negb (Py.truthy title || Py.truthy link) then mret None
  else
    let guid := Py.or_str link (Py.prefix 80 (Py.or_str title "")) in
    mret (Some {| title := Py.or_str title "(untitled)";
                  link := Py.or_str link "";
                  guid := guid;
                  summary := desc;
                  date := dt |}).

Definition missing_list_selector : exn :=
  Exn ValueError "Missing list_selector for HTML source".

Definition parse_html (url : option string) (cfg : gmap string string)
  : M (list item) :=
  resp ← fetch url;
  let soup := bs4_lxml resp in
  let list_selector := cfg !! "list_selector" in
  if negb (Py.truthy list_selector) then raise missing_list_selector
  else
    let blocks := css_select (default "" list_selector) soup in
    collect (html_block url cfg) blocks.

(** [build_feed]: the element tree, then the file. *)
Definition channel_fields (channel_meta : gmap string string) : list node :=
  omap (λ k, (λ v, Tag k [] [Text v]) <$> channel_meta !! k)
       ["title"; "link"; "description"; "language"; "ttl"].

Definition feed_item (it : item) : node :=
  Tag "item" []
    [ Tag "title" [] [Text (title it)];
      Tag "link" [] [Text (link it)];
      Tag "guid" [] [Text (guid it)];
      Tag "description" [] [Text (summary it)];
      Tag "pubDate" [] [Text (rfc822 (date it))] ].

Definition feed_tree (channel_meta : gmap string string) (built : datetime)
    (items : list item) : node :=
  Tag "rss" [("version", "2.0")]
    [ Tag "channel" []
        (channel_fields channel_meta
         ++ [Tag "lastBuildDate" [] [Text (rfc822 built)]]
         ++ (feed_item <$> items)) ].

Definition build_feed (channel_meta : gmap string string) (items : list item)
    (out_path : string) : M unit :=
  built ← now_utc;
  write_file out_path (etree_write (feed_tree channel_meta built items)).

(** *** Deduplication, ordering and the main procedure *)

(** Lines 186-189: one item against the [seen] dictionary. *)
Definition dedup_step (acc : list item * gmap string bool) (it : item)
  : list item * gmap string bool :=
  let '(all_items, seen) := acc in
  if bool_decide (seen !! guid it = None)
  then (all_items ++ [it], <[guid it := true]> seen)
  else (all_items, seen).

Definition dedup (items : list item) (acc : list item * gmap string bool)
  : list item * gmap string bool :=
  foldl dedup_step acc items.

Definition skip_msg (name : string) (stype : option string) : string :=
  "Skipping " +:+ name +:+ ": unknown type '" +:+ Py.str stype +:+ "'".

Definition warn_msg (name : string) (url : option string) (e : exn) : string :=
  "[WARN] Failed to process " +:+ name +:+ " (" +:+ Py.str url +:+ "): "
  +:+ exn_msg e.

(** The extraction of one source, lines 177-184: [None] is the [continue]
    of an unknown type. *)
Definition extract (src : gmap string string) : M (option (list item)) :=
  let stype := src !! "type" in
  let name := default "source" (src !! "name") in
  let url := src !! "url" in
  if bool_decide (stype = Some "rss") then
    resp ← fetch url;
    items ← parse_rss resp;
    mret (Some items)
  else if bool_decide (stype = Some "html") then
    items ← parse_html url src;
    mret (Some items)
  else
    eprint (skip_msg name stype);;
    mret None.

(** The body of the loop over the sources, lines 173-192. *)
Definition process_source (acc : list item * gmap string bool)
    (src : gmap string string) : M (list item * gmap string bool) :=
  let name := default "source" (src !! "name") in
  let url := src !! "url" in
  try_except
    (r ← extract src;
     match r with
     | Some items => mret (dedup items acc)
     | None => mret acc
     end)
    (λ e, eprint (warn_msg name url e);; mret acc).

Definition run_sources (srcs : list (gmap string string))
    (acc : list item * gmap string bool) : M (list item * gmap string bool) :=
  for_fold process_source acc srcs.

(** [list.sort(key=lambda x: x["date"], reverse=True)]. CPython reverses the
    list, sorts it stably in ascending order with [<] on the keys, and
    reverses the result; a comparison that raises aborts the sort. *)
Fixpoint insert_by_date (x : item) (l : list item) : res (list item) :=
  match l with
  | [] => Ok [x]
  | y :: r =>
      lt ← dt_lt (date y) (date x);
      if lt : bool then (y ::.) <$> insert_by_date x r
      else Ok (x :: y :: r)
  end.

Fixpoint sort_by_date (l : list item) : res (list item) :=
  match l with
  | [] => Ok []
  | x :: r => s ← sort_by_date r; insert_by_date x s
  end.

Definition sort_by_date_reverse (l : list item) : res (list item) :=
  reverse <$> sort_by_date (reverse l).

(** [state.get("seen", {})]: only a dictionary has [get]. *)
Definition as_dict (doc : json_doc) : M state :=
  match doc with
  | JObject st => mret st
  | JValue => raise (Exn AttributeError "object has no attribute 'get'")
  end.

Definition wrote_msg (out_path : string) (n : nat) : string :=
  "Wrote " +:+ out_path +:+ " with " +:+ pretty n +:+ " items.".

Definition main (config_path out_path : string) : M unit :=
  cfg ← load_yaml config_path;
  let state_path := default "state.json" (cfg_state_file cfg) in
  doc ← load_state state_path;
  st ← as_dict doc;
  let seen := default ∅ (st_seen st) in
  '(all_items, seen) ← run_sources (default [] (cfg_sources cfg)) ([], seen);
  all_items ← lift (sort_by_date_reverse all_items);
  let limit := default 60 (cfg_limit cfg) in
  let all_items := Py.slice_to limit all_items in
  let feed_meta := default ∅ (cfg_feed cfg) in
  build_feed feed_meta all_items out_path;;
  save_state state_path (State (Some seen) (st_rest st));;
  print (wrote_msg out_path (length all_items)).

End Program.

(** ** Specification-side definitions *)

Section Notions.
Context `{Env}.

(** The items extracted during a run, in processing order: the lists of the
    sources whose extraction succeeded, the world being the one each source
    is processed in. *)
Fixpoint extracted (srcs : list (gmap string string)) (w : world) : list item :=
  match srcs with
  | [] => []
  | src :: rest =>
      match extract src w with
      | (Ok (Some items), _) => items
      | _ => []
      end ++ extracted rest (snd (process_source ([], ∅) src w))
  end.

(** The first non-empty string of a list, the empty string when there is
    none. *)
Fixpoint first_nonempty (l : list string) : string :=
  match l with
  | [] => ""
  | s :: r => if String.eqb s "" then first_nonempty r else s
  end.

(** [y] is not more recent than [x]. *)
Definition not_newer (y x : item) : Prop := dt_lt (date x) (date y) = Ok false.

(** The number two datetimes of the same kind are ordered by: the calendar
    reading of a naive value, the instant of an aware one. *)
Definition stamp (d : datetime) : Z := wall d - default 0 (tzinfo d).

Definition older_eq (x y : item) : Prop := stamp (date x) ≤ stamp (date y).

(** All timestamps of a list are naive, or all are aware. *)
Definition same_kind (l : list item) : Prop :=
  ∃ k : bool, Forall (λ x, aware (date x) = k) l.

(** Only the clock was read. *)
Definition clock_only (w w' : world) : Prop :=
  files w' = files w ∧ stderr w' = stderr w ∧ stdout w' = stdout w.

(** Nothing but the clock and the error stream changed. *)
Definition no_output (w w' : world) : Prop :=
  files w' = files w ∧ stdout w' = stdout w.

(** Two worlds that differ at most in what the error stream holds. *)
Definition same_but_stderr (w1 w2 : world) : Prop :=
  files w1 = files w2 ∧ stdout w1 = stdout w2 ∧ ticks w1 = ticks w2.

(** A computation that does not read the error stream and only appends to
    it: run in two worlds that differ in the error stream only, it returns
    the same result, appends the same lines, and leaves two worlds that
    again differ in the error stream only. *)
Definition blind {A} (m : M A) : Prop :=
  ∀ w1 w2, same_but_stderr w1 w2 →
    (m w1).1 = (m w2).1
    ∧ same_but_stderr (m w1).2 (m w2).2
    ∧ ∃ lines,
        stderr (m w1).2 = stderr w1 ++ lines
        ∧ stderr (m w2).2 = stderr w2 ++ lines.

(** The source [src] changes a run by the line [msg] on the error stream
    and by nothing else: a configuration that lists [src] among its sources
    and the same configuration without it give runs with the same result
    (both complete, or both raise the same exception), the same files and
    the same standard output, and, when they complete, error streams that
    differ by [msg], which stands where [src] is processed. *)
Definition run_ignores (src : gmap string string) (msg : string) : Prop :=
  ∀ config_path config_path' out_path w text text' cfg pre post,
    files w !! config_path = Some text →
    yaml_safe_load text = Ok cfg →
    cfg_sources cfg = Some (pre ++ src :: post) →
    files w !! config_path' = Some text' →
    yaml_safe_load text' =
      Ok (Config (cfg_state_file cfg) (Some (pre ++ post)) (cfg_limit cfg)
                 (cfg_feed cfg)) →
    (main config_path out_path w).1 = (main config_path' out_path w).1
    ∧ files (main config_path out_path w).2 =
        files (main config_path' out_path w).2
    ∧ stdout (main config_path out_path w).2 =
        stdout (main config_path' out_path w).2
    ∧ ((main config_path out_path w).1 = Ok () →
       ∃ before after,
         stderr (main config_path out_path w).2 =
           stderr w ++ before ++ [msg] ++ after
         ∧ stderr (main config_path' out_path w).2 =
             stderr w ++ before ++ after).

End Notions.

(** ** A concrete environment

    A small world for the examples: three sites, the few date strings they
    use, and parsers that know exactly these documents. The serialisers give
    the content without the layout of the real ones. *)

Module Fixture.

Definition nl : string := String (ascii_of_nat 10) "".
Definition dq : string := String (ascii_of_nat 34) "".
Definition quoted (s : string) : string := dq +:+ s +:+ dq.

Fixpoint table {A} (tbl : list (string * A)) (k : string) : option A :=
  match tbl with
  | [] => None
  | (k', v) :: r => if String.eqb k k' then Some v else table r k
  end.

Definition day : Z := 86400000000.
Definition jan1 : Z := 1704067200000000.

(** Site A, a feed of three items dated 3, 2 and 1 January 2024. *)
Definition rss_item_node (t l g d : string) : node :=
  Tag "item" []
    [ Tag "title" [] [Text t]; Tag "link" [] [Text l];
      Tag "guid" [] [Text g]; Tag "pubDate" [] [Text d] ].

Definition feed_a_text : string :=
  "<rss><channel>" +:+
  "<item><title>A one</title><link>https://a.example/1</link><guid>a1</guid>" +:+
  "<pubDate>Wed, 03 Jan 2024 00:00:00 +0000</pubDate></item>" +:+
  "<item><title>A two</title><link>https://a.example/2</link><guid>a2</guid>" +:+
  "<pubDate>Tue, 02 Jan 2024 00:00:00 +0000</pubDate></item>" +:+
  "<item><title>A three</title><link>https://a.example/3</link><guid>a3</guid>" +:+
  "<pubDate>Mon, 01 Jan 2024 00:00:00 +0000</pubDate></item>" +:+
  "</channel></rss>".

Definition feed_a : node :=
  Tag "[document]" []
    [ Tag "rss" []
        [ Tag "channel" []
            [ rss_item_node "A one" "https://a.example/1" "a1"
                "Wed, 03 Jan 2024 00:00:00 +0000";
              rss_item_node "A two" "https://a.example/2" "a2"
                "Tue, 02 Jan 2024 00:00:00 +0000";
              rss_item_node "A three" "https://a.example/3" "a3"
                "Mon, 01 Jan 2024 00:00:00 +0000" ] ] ].

(** Site B, a listing page of two articles. *)
Definition article (t href d : string) : node :=
  Tag "article" []
    [ Tag "h2" [] [Text t];
      Tag "a" [("href", href)] [Text "more"];
      Tag "time" [("datetime", d)] [] ].

Definition page_b_text : string :=
  "<html><body>" +:+
  "<article><h2>B one</h2><a href=b1>more</a>" +:+
  "<time datetime=2023-12-31T00:00:00+00:00></time></article>" +:+
  "<article><h2>B two</h2><a href=b2>more</a>" +:+
  "<time datetime=2024-01-04T00:00:00+00:00></time></article>" +:+
  "</body></html>".

Definition page_b : node :=
  Tag "[document]" []
    [ Tag "html" []
        [ Tag "body" []
            [ article "B one" "b1" "2023-12-31T00:00:00+00:00";
              article "B two" "b2" "2024-01-04T00:00:00+00:00" ] ] ].

(** Site C, a feed whose first item has a date without a zone and whose
    second item has no date at all. *)
Definition feed_c_text : string :=
  "<rss><channel>" +:+
  "<item><title>C one</title><guid>c1</guid>" +:+
  "<pubDate>2024-01-01 10:00:00</pubDate></item>" +:+
  "<item><title>C two</title><guid>c2</guid></item>" +:+
  "</channel></rss>".

Definition feed_c : node :=
  Tag "[document]" []
    [ Tag "rss" []
        [ Tag "channel" []
            [ Tag "item" []
                [ Tag "title" [] [Text "C one"]; Tag "guid" [] [Text "c1"];
                  Tag "pubDate" [] [Text "2024-01-01 10:00:00"] ];
              Tag "item" []
                [ Tag "title" [] [Text "C two"]; Tag "guid" [] [Text "c2"] ] ] ] ].

Definition empty_document : node := Tag "[document]" [] [].

Definition dates : list (string * datetime) :=
  [ ("Wed, 03 Jan 2024 00:00:00 +0000", utc (jan1 + 2 * day));
    ("Tue, 02 Jan 2024 00:00:00 +0000", utc (jan1 + day));
    ("Mon, 01 Jan 2024 00:00:00 +0000", utc jan1);
    ("2023-12-31T00:00:00+00:00", utc (jan1 - day));
    ("2024-01-04T00:00:00+00:00", utc (jan1 + 3 * day));
    ("2024-01-01 10:00:00", Datetime (jan1 + 36000000000) None);
    ("2024-01-05", Datetime (jan1 + 4 * day) None) ].

(** The configurations, as the YAML text and as the value it loads to. *)
Definition source_a : gmap string string :=
  list_to_map [("type", "rss"); ("name", "A"); ("url", "https://a.example/feed")].

Definition source_b : gmap string string :=
  list_to_map
    [ ("type", "html"); ("name", "B"); ("url", "https://b.example/news");
      ("base_url", "https://b.example/"); ("list_selector", "article");
      ("title_selector", "h2"); ("link_selector", "a");
      ("date_selector", "time"); ("date_attr", "datetime") ].

Definition source_c : gmap string string :=
  list_to_map [("type", "rss"); ("name", "C"); ("url", "https://c.example/feed")].

(** An HTML source without [list_selector], and a source of a type the
    program does not know. *)
Definition source_d : gmap string string :=
  list_to_map
    [ ("type", "html"); ("name", "D"); ("url", "https://b.example/news");
      ("title_selector", "h2") ].

Definition source_e : gmap string string :=
  list_to_map [("type", "json"); ("name", "E"); ("url", "https://e.example/api")].

Definition sites_text : string :=
  Py.join nl
    [ "limit: 2";
      "sources:";
      "- {type: rss, name: A, url: 'https://a.example/feed'}";
      "- type: html";
      "  name: B";
      "  url: https://b.example/news";
      "  base_url: https://b.example/";
      "  list_selector: article";
      "  title_selector: h2";
      "  link_selector: a";
      "  date_selector: time";
      "  date_attr: datetime" ].

Definition sites : config :=
  Config None (Some [source_a; source_b]) (Some 2) None.

Definition mixed_text : string :=
  Py.join nl
    [ "sources:";
      "- {type: rss, name: C, url: 'https://c.example/feed'}" ].

Definition mixed : config := Config None (Some [source_c]) None None.

Definition no_sources_text : string := "sources: []".

Definition no_sources : config := Config None (Some []) None None.

(** The state file of an earlier run that emitted the first article of
    site B. *)
Definition state_b1_text : string :=
  "{" +:+ quoted "seen" +:+ ": {" +:+ quoted "https://b.example/b1" +:+ ": true}}".

Definition state_b1 : state :=
  State (Some {[ "https://b.example/b1" := true ]}) ∅.

Definition render_seen (seen : gmap string bool) : string :=
  Py.join ", "
    ((λ kv, quoted kv.1 +:+ ": " +:+ (if kv.2 : bool then "true" else "false"))
       <$> map_to_list seen).

Fixpoint render (n : node) : string :=
  match n with
  | Text s => s
  | Tag nm _ ks =>
      "<" +:+ nm +:+ ">" +:+ foldr (λ k acc, render k +:+ acc) "" ks
      +:+ "</" +:+ nm +:+ ">"
  end.

Definition connection_error : exn :=
  Exn RequestException "connection refused".

Definition decode_error : exn :=
  Exn JSONDecodeError "Expecting property name enclosed in double quotes".

Definition yaml_error : exn := Exn YAMLError "could not parse the document".

Definition env : Env := {|
  requests_get url :=
    from_option Ok (Raised connection_error)
      (url ≫= table [ ("https://a.example/feed", feed_a_text);
                      ("https://b.example/news", page_b_text);
                      ("https://c.example/feed", feed_c_text) ]);
  bs4_xml text :=
    default empty_document (table [(feed_a_text, feed_a); (feed_c_text, feed_c)] text);
  bs4_lxml text :=
    default empty_document (table [(page_b_text, page_b)] text);
  css_select sel n := List.filter (Soup.named [sel]) (Soup.descendants n);
  urllib_urljoin base href := base +:+ href;
  dateutil_parse := table dates;
  datetime_strptime text fmt :=
    if String.eqb fmt "%d/%m/%Y" && String.eqb text "05/01/2024"
    then Some (Datetime (jan1 + 4 * day) None)
    else None;
  clock n := 1717200000000000 + Z.of_nat n;
  yaml_safe_load text :=
    from_option Ok (Raised yaml_error)
      (table [ (sites_text, sites); (mixed_text, mixed);
               (no_sources_text, no_sources) ] text);
  json_load text :=
    from_option Ok (Raised decode_error)
      (table [ (state_b1_text, JObject state_b1);
               ("{}", JObject (State None ∅)) ] text);
  json_dump st := "{" +:+ quoted "seen" +:+ ": {" +:+ render_seen (default ∅ (st_seen st)) +:+ "}}";
  format_datetime d := pretty (stamp d);
  etree_write := render;
  open_w path := negb (String.prefix "missing/" path) |}.

Definition world0 (fs : list (string * string)) : world :=
  World (list_to_map fs) [] [] 0.

(** The run of the two sites A and B after an earlier run has emitted the
    first article of B; the run over site C; a run that finds a truncated
    state file. *)
Definition scenario : world :=
  world0 [("sites.yaml", sites_text); ("state.json", state_b1_text)].

Definition mixed_world : world := world0 [("sites.yaml", mixed_text)].

Definition corrupt_world : world :=
  world0 [("sites.yaml", sites_text); ("state.json", "{")].

(** An HTML source with a fixed date format, and a block whose date is
    written in another one. *)
Definition dated_cfg : gmap string string :=
  list_to_map
    [ ("type", "html"); ("name", "F"); ("url", "https://b.example/news");
      ("list_selector", "article"); ("title_selector", "h2");
      ("date_selector", "time"); ("date_attr", "datetime");
      ("date_format", "%d/%m/%Y") ].

Definition dated_block : node := article "B three" "b3" "2024-01-05".

(** An Atom entry with a [self] link before its [alternate] link. *)
Definition atom_entry : node :=
  Tag "entry" []
    [ Tag "title" [] [Text "Post"];
      Tag "link" [("rel", "self"); ("href", "https://a.example/feed/1.atom")] [];
      Tag "link" [("rel", "alternate"); ("href", "https://a.example/post/1")] [];
      Tag "id" [] [Text "urn:post:1"] ].

(** A feed item that has nothing but a description. *)
Definition bare_entry : node :=
  Tag "item" [] [Tag "description" [] [Text "Only a summary"]].

End Fixture.

(** ** Further sites and a second run *)

Module Fixture2.
Import Fixture.

(** A feed that cannot be fetched. *)
Definition source_down : gmap string string :=
  list_to_map [("type", "rss"); ("name", "Down"); ("url", "https://down.example/feed")].

(** The [seen] dictionary after the run of [scenario]. *)
Definition scenario_seen : gmap string bool :=
  list_to_map
    [ ("https://b.example/b1", true); ("a1", true); ("a2", true); ("a3", true);
      ("https://b.example/b2", true) ].

Definition state_after : state := State (Some scenario_seen) ∅.

(** The configuration of [sites] with a negative limit. *)
Definition trimmed_text : string :=
  Py.join nl
    [ "limit: -1";
      "sources:";
      "- {type: rss, name: A, url: 'https://a.example/feed'}";
      "- type: html";
      "  name: B";
      "  url: https://b.example/news";
      "  base_url: https://b.example/";
      "  list_selector: article";
      "  title_selector: h2";
      "  link_selector: a";
      "  date_selector: time";
      "  date_attr: datetime" ].

Definition trimmed : config :=
  Config None (Some [source_a; source_b]) (Some (-1)) None.

(** The feed written by the run of [scenario]. *)
Definition scenario_out : list item :=
  [ Item "B two" "https://b.example/b2" "https://b.example/b2" ""
      (utc (jan1 + 3 * day));
    Item "A one" "https://a.example/1" "a1" "" (utc (jan1 + 2 * day)) ].

Definition written_feed : node :=
  feed_tree (H := env) ∅ (utc 1717200000000000) scenario_out.

Definition written_text : string := render written_feed.

(** The environment of [Fixture], which also reads what that run wrote (its
    state file and its feed), a state file that is a list, and the
    configuration [trimmed]. *)
Definition env2 : Env := {|
  requests_get := @requests_get env;
  bs4_xml text :=
    if String.eqb text written_text then Tag "[document]" [] [written_feed]
    else @bs4_xml env text;
  bs4_lxml := @bs4_lxml env;
  css_select := @css_select env;
  urllib_urljoin := @urllib_urljoin env;
  dateutil_parse := @dateutil_parse env;
  datetime_strptime := @datetime_strptime env;
  clock := @clock env;
  yaml_safe_load text :=
    if String.eqb text trimmed_text then Ok trimmed
    else @yaml_safe_load env text;
  json_load text :=
    if String.eqb text (@json_dump env state_after) then Ok (JObject state_after)
    else if String.eqb text "[]" then Ok JValue
    else @json_load env text;
  json_dump := @json_dump env;
  format_datetime := @format_datetime env;
  etree_write := @etree_write env;
  open_w := @open_w env |}.

Definition list_state_world : world :=
  world0 [("sites.yaml", sites_text); ("state.json", "[]")].


Definition first_run_world : world := world0 [("sites.yaml", no_sources_text)].

Definition trimmed_world : world :=
  world0 [("sites.yaml", trimmed_text); ("state.json", state_b1_text)].

End Fixture2.

(** ** Configurations with one source more, and a state file that cannot
    be written *)

Module Fixture3.
Import Fixture Fixture2.

(** An HTML source without [list_selector] whose page cannot be fetched. *)
Definition source_unfetched : gmap string string :=
  list_to_map
    [ ("type", "html"); ("name", "H"); ("url", "https://down.example/page");
      ("title_selector", "h2") ].


Definition site_b_lines : list string :=
  [ "- type: html";
    "  name: B";
    "  url: https://b.example/news";
    "  base_url: https://b.example/";
    "  list_selector: article";
    "  title_selector: h2";
    "  link_selector: a";
    "  date_selector: time";
    "  date_attr: datetime" ].

(** The configuration [sites] with a third source between A and B. *)
Definition sites_with (src : gmap string string) : config :=
  Config None (Some [source_a; src; source_b]) (Some 2) None.

Definition sites_with_text (line : string) : string :=
  Py.join nl
    ([ "limit: 2";
       "sources:";
       "- {type: rss, name: A, url: 'https://a.example/feed'}";
       line ] ++ site_b_lines).

Definition with_d_text : string :=
  sites_with_text
    "- {type: html, name: D, url: 'https://b.example/news', title_selector: h2}".

Definition with_e_text : string :=
  sites_with_text "- {type: json, name: E, url: 'https://e.example/api'}".

Definition with_down_text : string :=
  sites_with_text "- {type: rss, name: Down, url: 'https://down.example/feed'}".

(** A configuration whose state file lies in a directory that does not
    exist. *)
Definition lost_state_text : string :=
  Py.join nl ["state_file: missing/state.json"; "sources: []"].

Definition lost_state : config :=
  Config (Some "missing/state.json") (Some []) None None.

Definition env3 : Env := {|
  requests_get := @requests_get env2;
  bs4_xml := @bs4_xml env2;
  bs4_lxml := @bs4_lxml env2;
  css_select := @css_select env2;
  urllib_urljoin := @urllib_urljoin env2;
  dateutil_parse := @dateutil_parse env2;
  datetime_strptime := @datetime_strptime env2;
  clock := @clock env2;
  yaml_safe_load text :=
    from_option Ok (@yaml_safe_load env2 text)
      (table [ (with_d_text, sites_with source_d);
               (with_e_text, sites_with source_e);
               (with_down_text, sites_with source_down);
               (lost_state_text, lost_state) ] text);
  json_load := @json_load env2;
  json_dump := @json_dump env2;
  format_datetime := @format_datetime env2;
  etree_write := @etree_write env2;
  open_w := @open_w env2 |}.

(** A world with the configuration [sites] and one of the configurations
    above. *)
Definition two_configurations (text : string) : world :=
  world0 [ ("sites.yaml", sites_text); ("with.yaml", text);
           ("state.json", state_b1_text) ].

Definition lost_state_world : world := world0 [("sites.yaml", lost_state_text)].

End Fixture3.

(** * Properties *)

Ltac munfold :=
  unfold mbind, M_bind, mret, M_ret, res_bind, res_ret, fmap, res_fmap,
    raise, lift, try_except in *.

Section Properties.
Context `{Env}.

(** ** Effects of the primitives *)

Lemma bind_ok {A B} (m : M A) (f : A → M B) w a w' :
  m w = (Ok a, w') → (m ≫= f) w = f a w'.
Proof. intros Hm. munfold. by rewrite Hm. Qed.

Lemma bind_raised {A B} (m : M A) (f : A → M B) w e w' :
  m w = (Raised e, w') → (m ≫= f) w = (Raised e, w').
Proof. intros Hm. munfold. by rewrite Hm. Qed.

Lemma bind_inv {A B} (m : M A) (f : A → M B) w b w2 :
  (m ≫= f) w = (Ok b, w2) → ∃ a w1, m w = (Ok a, w1) ∧ f a w1 = (Ok b, w2).
Proof.
  munfold. destruct (m w) as [[a|e] w1]; [eauto | discriminate].
Qed.

(** ** The syndication extractor never raises *)

Lemma rss_entry_run e w :
  ∃ dt w',
    rss_entry e w =
      (Ok {| title := Py.or_str (rss_title e) "(untitled)";
             link := Py.or_str (rss_link e) "";
             guid := Py.or_str (Py.or_ (rss_guid e) (rss_link e))
                       (Py.prefix 80 (Py.or_str (rss_title e) ""));
             summary := rss_summary e;
             date := dt |}, w')
    ∧ (w' = w ∨ w' = tick w).
Proof.
  unfold rss_entry. munfold.
  destruct (rss_date_text _ e) as [text|]; [destruct (dateutil_parse text)|];
    simpl; eauto.
Qed.

Lemma collect_total {A B} (f : A → M (option B)) (l : list A) :
  (∀ a w, ∃ o w', f a w = (Ok o, w')) →
  ∀ w, ∃ bs w', collect f l w = (Ok bs, w').
Proof.
  intros Hf. induction l as [|a r IH]; intros w; simpl.
  - munfold. eauto.
  - destruct (Hf a w) as (o & w1 & Ho). destruct (IH w1) as (bs & w2 & Hbs).
    munfold. rewrite Ho, Hbs. eauto.
Qed.

Lemma parse_rss_total xml_text w :
  ∃ items w', parse_rss xml_text w = (Ok items, w').
Proof.
  unfold parse_rss. apply collect_total. intros e w0.
  destruct (rss_entry_run e w0) as (dt & w1 & He & _).
  munfold. rewrite He. eauto.
Qed.

(** ** The loop over the sources *)

Lemma process_source_run acc src w :
  process_source acc src w =
    (Ok match extract src w with
        | (Ok (Some items), _) => dedup items acc
        | _ => acc
        end,
     snd (process_source ([], ∅) src w)).
Proof.
  unfold process_source, eprint. munfold.
  by destruct (extract src w) as [[[items|]|e] w1].
Qed.

Lemma dedup_app l1 l2 acc : dedup (l1 ++ l2) acc = dedup l2 (dedup l1 acc).
Proof. unfold dedup. apply foldl_app. Qed.

(** The loop never raises, and what it accumulates is the deduplication of
    the extracted items taken in processing order. *)
Lemma run_sources_run srcs acc w :
  run_sources srcs acc w =
    (Ok (dedup (extracted srcs w) acc), snd (run_sources srcs ([], ∅) w)).
Proof.
  revert acc w. induction srcs as [|src rest IH]; intros acc w; [done|].
  unfold run_sources in *. cbn [for_fold extracted].
  rewrite (bind_ok _ _ _ _ _ (process_source_run acc src w)).
  rewrite (bind_ok _ _ _ _ _ (process_source_run ([], ∅) src w)).
  rewrite IH, dedup_app. f_equal.
  - by destruct (extract src w) as [[[items|]|e] w1].
  - by rewrite (IH (let (r, _) := extract src w in _)).
Qed.

(** ** Frame properties: what a call leaves untouched *)

Lemma clock_only_refl w : clock_only w w.
Proof. done. Qed.

Lemma clock_only_trans w1 w2 w3 :
  clock_only w1 w2 → clock_only w2 w3 → clock_only w1 w3.
Proof.
  unfold clock_only. intros (Hf & He & Ho) (Hf' & He' & Ho').
  rewrite Hf', He', Ho'. by rewrite Hf, He, Ho.
Qed.

Lemma clock_only_tick w : clock_only w (tick w).
Proof. done. Qed.

Lemma no_output_refl w : no_output w w.
Proof. done. Qed.

Lemma no_output_trans w1 w2 w3 :
  no_output w1 w2 → no_output w2 w3 → no_output w1 w3.
Proof.
  unfold no_output. intros (Hf & Ho) (Hf' & Ho'). rewrite Hf', Ho'. by rewrite Hf, Ho.
Qed.

Lemma clock_only_no_output w w' : clock_only w w' → no_output w w'.
Proof. intros (Hf & _ & Ho). by split. Qed.

Lemma collect_frame {A B} (R : relation world) (f : A → M (option B)) l :
  Reflexive R → Transitive R →
  (∀ a w, R w (snd (f a w))) →
  ∀ w, R w (snd (collect f l w)).
Proof.
  intros HR HT Hf. induction l as [|a r IH]; intros w; simpl; [apply HR|].
  munfold. specialize (Hf a w). destruct (f a w) as [[o|e] w1]; simpl in *; [|done].
  specialize (IH w1). destruct (collect f r w1) as [[bs|e] w2]; simpl in *;
    by etrans.
Qed.

Global Instance clock_only_preorder : PreOrder clock_only.
Proof. split; [intros ?; apply clock_only_refl | intros ???; apply clock_only_trans]. Qed.

Global Instance no_output_preorder : PreOrder no_output.
Proof. split; [intros ?; apply no_output_refl | intros ???; apply no_output_trans]. Qed.

Lemma rss_entry_frame e w : clock_only w (snd (rss_entry e w)).
Proof.
  destruct (rss_entry_run e w) as (dt & w' & -> & [-> | ->]); simpl;
    [apply clock_only_refl | apply clock_only_tick].
Qed.

Lemma parse_rss_frame xml_text w : clock_only w (snd (parse_rss xml_text w)).
Proof.
  unfold parse_rss. apply collect_frame; [apply _ .. |].
  intros e w0. pose proof (rss_entry_frame e w0) as Hf. munfold.
  by destruct (rss_entry e w0) as [[it|err] w1].
Qed.

Lemma html_block_run url cfg b w :
  ∃ dt w',
    html_block url cfg b w =
      (Ok (if negb (Py.truthy (html_title cfg b) || Py.truthy (html_link url cfg b))
           then None
           else Some {| title := Py.or_str (html_title cfg b) "(untitled)";
                        link := Py.or_str (html_link url cfg b) "";
                        guid := Py.or_str (html_link url cfg b)
                                  (Py.prefix 80 (Py.or_str (html_title cfg b) ""));
                        summary := html_desc cfg b;
                        date := dt |}), w')
    ∧ (html_date cfg b = Some dt ∧ w' = w
       ∨ html_date cfg b = None ∧ dt = utc (clock (ticks w)) ∧ w' = tick w).
Proof.
  unfold html_block. munfold.
  destruct (html_date cfg b) as [d|]; simpl.
  - exists d, w. split; [|by left]. by destruct (negb _).
  - exists (utc (clock (ticks w))), (tick w). split; [|by right].
    unfold now_utc. by destruct (negb _).
Qed.

Lemma html_block_frame url cfg b w : clock_only w (snd (html_block url cfg b w)).
Proof.
  destruct (html_block_run url cfg b w) as (dt & w' & -> & [[_ ->] | (_ & _ & ->)]);
    simpl; [apply clock_only_refl | apply clock_only_tick].
Qed.

Lemma parse_html_frame url cfg w : clock_only w (snd (parse_html url cfg w)).
Proof.
  unfold parse_html, fetch. munfold.
  destruct (requests_get url) as [page|e]; simpl; [|done].
  destruct (negb _); simpl; [done|].
  apply collect_frame; [apply _ .. |]. apply html_block_frame.
Qed.

Lemma extract_frame src w : no_output w (snd (extract src w)).
Proof.
  unfold extract, fetch, eprint. munfold.
  repeat case_bool_decide.
  - destruct (requests_get _) as [page|e]; simpl; [|done].
    pose proof (parse_rss_frame page w) as Hf.
    destruct (parse_rss page w) as [[items|e] w1]; simpl in *;
      by apply clock_only_no_output.
  - pose proof (parse_html_frame (src !! "url") src w) as Hf.
    destruct (parse_html _ src w) as [[items|e] w1]; simpl in *;
      by apply clock_only_no_output.
  - done.
Qed.

Lemma process_source_frame acc src w :
  no_output w (snd (process_source acc src w)).
Proof.
  unfold process_source, eprint. munfold.
  pose proof (extract_frame src w) as Hf.
  destruct (extract src w) as [[[items|]|e] w1]; simpl in *; try done.
Qed.

Lemma run_sources_frame srcs acc w :
  no_output w (snd (run_sources srcs acc w)).
Proof.
  revert acc w. induction srcs as [|src rest IH]; intros acc w; [done|].
  unfold run_sources in *. cbn [for_fold].
  rewrite (bind_ok _ _ _ _ _ (process_source_run acc src w)).
  etrans; [apply (process_source_frame ([], ∅) src w) | apply IH].
Qed.

(** ** Deduplication *)

Lemma dedup_nil acc : dedup [] acc = acc.
Proof. done. Qed.

Lemma dedup_cons it r acc : dedup (it :: r) acc = dedup r (dedup_step acc it).
Proof. done. Qed.

Lemma dedup_snoc pre it acc :
  dedup (pre ++ [it]) acc = dedup_step (dedup pre acc) it.
Proof. by rewrite dedup_app. Qed.

Lemma dedup_step_seen all_items (seen : gmap string bool) it :
  guid it ∈ dom seen → dedup_step (all_items, seen) it = (all_items, seen).
Proof.
  intros [v Hv]%elem_of_dom. unfold dedup_step.
  rewrite bool_decide_eq_false_2; [done | by rewrite Hv].
Qed.

Lemma dedup_step_unseen all_items (seen : gmap string bool) it :
  guid it ∉ dom seen →
  dedup_step (all_items, seen) it = (all_items ++ [it], <[guid it := true]> seen).
Proof.
  intros Hn%not_elem_of_dom. unfold dedup_step.
  by rewrite bool_decide_eq_true_2.
Qed.

(** The accumulated list only grows at its end, by what an empty one would
    have collected. *)
Lemma dedup_prefix items all_items (seen : gmap string bool) :
  dedup items (all_items, seen) =
    (all_items ++ (dedup items ([], seen)).1, (dedup items ([], seen)).2).
Proof.
  revert all_items seen. induction items as [|it r IH]; intros all_items seen.
  - by rewrite !dedup_nil, app_nil_r.
  - rewrite !dedup_cons. destruct (decide (guid it ∈ dom seen)) as [Hin|Hout].
    + rewrite !dedup_step_seen by done. apply IH.
    + rewrite !dedup_step_unseen by done. rewrite (IH (all_items ++ [it])).
      rewrite (IH ([] ++ [it])). simpl. by rewrite <- app_assoc.
Qed.

Lemma dedup_kept_cons it r (seen : gmap string bool) :
  (dedup (it :: r) ([], seen)).1 =
    if decide (guid it ∈ dom seen) then (dedup r ([], seen)).1
    else it :: (dedup r ([], <[guid it := true]> seen)).1.
Proof.
  rewrite dedup_cons. destruct (decide _) as [Hin|Hout].
  - by rewrite dedup_step_seen.
  - rewrite dedup_step_unseen by done. by rewrite dedup_prefix.
Qed.

Lemma dedup_dom items all_items (seen : gmap string bool) :
  dom (dedup items (all_items, seen)).2 = dom seen ∪ list_to_set (guid <$> items).
Proof.
  revert all_items seen. induction items as [|it r IH]; intros all_items seen.
  - rewrite dedup_nil. set_solver.
  - rewrite dedup_cons. destruct (decide (guid it ∈ dom seen)) as [Hin|Hout].
    + rewrite dedup_step_seen by done. rewrite IH. set_solver.
    + rewrite dedup_step_unseen by done. rewrite IH, dom_insert_L. set_solver.
Qed.

Lemma dedup_kept_sublist items (seen : gmap string bool) :
  sublist (dedup items ([], seen)).1 items.
Proof.
  revert seen. induction items as [|it r IH]; intros seen; [done|].
  rewrite dedup_kept_cons. destruct (decide _).
  - by apply sublist_cons.
  - by apply sublist_skip.
Qed.

Lemma dedup_kept_fresh items (seen : gmap string bool) it :
  it ∈ (dedup items ([], seen)).1 → guid it ∉ dom seen.
Proof.
  revert seen. induction items as [|x r IH]; intros seen.
  - by intros ?%elem_of_nil.
  - rewrite dedup_kept_cons. destruct (decide _) as [Hin|Hout]; [by apply IH|].
    intros [->|Hr]%elem_of_cons; [done|].
    apply IH in Hr. rewrite dom_insert_L in Hr. set_solver.
Qed.

Lemma dedup_kept_NoDup items (seen : gmap string bool) :
  NoDup (guid <$> (dedup items ([], seen)).1).
Proof.
  revert seen. induction items as [|x r IH]; intros seen; [constructor|].
  rewrite dedup_kept_cons. destruct (decide _) as [Hin|Hout]; [by apply IH|].
  rewrite fmap_cons. constructor; [|by apply IH].
  intros (y & Hy & Hin)%list_elem_of_fmap.
  apply dedup_kept_fresh in Hin. rewrite dom_insert_L in Hin. set_solver.
Qed.

Lemma dedup_kept_first items (seen : gmap string bool) it :
  it ∈ (dedup items ([], seen)).1 →
  ∃ i, items !! i = Some it
       ∧ ∀ j y, (j < i)%nat → items !! j = Some y → guid y ≠ guid it.
Proof.
  revert seen. induction items as [|x r IH]; intros seen.
  - by intros ?%elem_of_nil.
  - rewrite dedup_kept_cons. destruct (decide _) as [Hin|Hout].
    + intros Hk. pose proof (dedup_kept_fresh _ _ _ Hk) as Hfresh.
      destruct (IH _ Hk) as (i & Hi & Hfirst). exists (S i). split; [done|].
      intros [|j] y Hj Hy; simpl in Hy.
      * injection Hy as <-. congruence.
      * apply (Hfirst j); [lia | done].
    + intros [->|Hk]%elem_of_cons.
      * exists 0%nat. split; [done|]. intros j y Hj. lia.
      * pose proof (dedup_kept_fresh _ _ _ Hk) as Hfresh.
        rewrite dom_insert_L in Hfresh.
        destruct (IH _ Hk) as (i & Hi & Hfirst). exists (S i). split; [done|].
        intros [|j] y Hj Hy; simpl in Hy.
        -- injection Hy as <-. set_solver.
        -- apply (Hfirst j); [lia | done].
Qed.

Lemma dedup_kept_complete items (seen : gmap string bool) it :
  it ∈ items → guid it ∉ dom seen → guid it ∈ guid <$> (dedup items ([], seen)).1.
Proof.
  revert seen. induction items as [|x r IH]; intros seen.
  - by intros ?%elem_of_nil.
  - rewrite dedup_kept_cons. intros Hit Hfresh.
    destruct (decide (guid x ∈ dom seen)) as [Hin|Hout].
    + apply elem_of_cons in Hit as [->|Hr]; [done | by apply IH].
    + rewrite fmap_cons. destruct (decide (guid it = guid x)) as [->|Hne].
      * apply elem_of_cons. by left.
      * apply elem_of_cons. right. apply elem_of_cons in Hit as [->|Hr]; [done|].
        apply IH; [done|]. rewrite dom_insert_L. set_solver.
Qed.

(** C1. Every extracted item is appended to the accumulated list if and
    only if its identifier is not in [seen] at the moment it is processed,
    and its identifier is marked at once. Consequently, of the items sharing
    an identifier (within a source or across sources, in declaration order)
    only the first occurrence can be kept: the kept items have pairwise
    distinct identifiers, each stands in the run before any other item with
    its identifier, and every identifier that was not in the loaded [seen]
    is kept once. *)
Theorem dedup_first_occurrence_wins srcs (seen0 : gmap string bool) w :
  let items := extracted srcs w in
  let kept := (dedup items ([], seen0)).1 in
  (∃ w', run_sources srcs ([], seen0) w = (Ok (dedup items ([], seen0)), w'))
  ∧ (∀ pre it post, items = pre ++ it :: post →
       let moment := dedup pre ([], seen0) in
       dom (moment.2) = dom seen0 ∪ list_to_set (guid <$> pre)
       ∧ dedup (pre ++ [it]) ([], seen0) =
           if bool_decide (guid it ∈ dom (moment.2)) then moment
           else (moment.1 ++ [it], <[guid it := true]> moment.2))
  ∧ sublist kept items
  ∧ NoDup (guid <$> kept)
  ∧ (∀ it, it ∈ kept →
       (guid it ∉ dom seen0)
       ∧ ∃ i, items !! i = Some it
              ∧ ∀ j y, (j < i)%nat → items !! j = Some y → guid y ≠ guid it)
  ∧ (∀ it, it ∈ items → guid it ∉ dom seen0 → guid it ∈ guid <$> kept).
Proof.
  intros items kept. split_and!.
  - eexists. apply run_sources_run.
  - intros pre it post _ moment. split; [apply dedup_dom|].
    rewrite dedup_snoc. fold moment. destruct moment as [all_items seen].
    case_bool_decide.
    + by apply dedup_step_seen.
    + by apply dedup_step_unseen.
  - apply dedup_kept_sublist.
  - apply dedup_kept_NoDup.
  - intros it Hit. split; [by eapply dedup_kept_fresh | by eapply dedup_kept_first].
  - apply dedup_kept_complete.
Qed.

(** ** Ordering by timestamp *)

Lemma dt_lt_same a b :
  aware a = aware b → dt_lt a b = Ok (stamp a <? stamp b).
Proof.
  unfold aware, dt_lt, stamp.
  destruct (tzinfo a) as [oa|], (tzinfo b) as [ob|]; simpl; try done.
  by rewrite Z.sub_0_r, Z.sub_0_r.
Qed.

Lemma dt_lt_mixed a b :
  aware a ≠ aware b → dt_lt a b = Raised (Exn TypeError naive_aware_msg).
Proof.
  unfold aware, dt_lt.
  by destruct (tzinfo a) as [oa|], (tzinfo b) as [ob|].
Qed.

Lemma dt_lt_Ok a b r :
  dt_lt a b = Ok r → aware a = aware b ∧ r = (stamp a <? stamp b).
Proof.
  intros Hlt. destruct (decide (aware a = aware b)) as [Heq|Hne].
  - rewrite dt_lt_same in Hlt by done. split; congruence.
  - rewrite dt_lt_mixed in Hlt by done. discriminate.
Qed.

Lemma insert_by_date_kind x l s k :
  Forall (λ y, aware (date y) = k) l → l ≠ [] →
  insert_by_date x l = Ok s → aware (date x) = k.
Proof.
  intros Hk Hne Hins. destruct l as [|y r]; [done|].
  apply Forall_cons in Hk as [Hy _]. simpl in Hins. munfold.
  destruct (dt_lt (date y) (date x)) as [lt|e] eqn:Hlt; [|discriminate].
  apply dt_lt_Ok in Hlt as [Heq _]. congruence.
Qed.

Lemma insert_by_date_sorted x l k :
  aware (date x) = k → Forall (λ y, aware (date y) = k) l →
  StronglySorted older_eq l →
  ∃ s, insert_by_date x l = Ok s ∧ s ≡ₚ x :: l ∧ StronglySorted older_eq s.
Proof.
  intros Hx Hk Hs. induction l as [|y r IH]; simpl.
  - exists [x]. split_and!; [done..|]. repeat constructor.
  - apply Forall_cons in Hk as [Hy Hr].
    apply StronglySorted_cons in Hs as [Hyr Hsr].
    rewrite dt_lt_same by congruence. munfold.
    destruct (Z.ltb_spec (stamp (date y)) (stamp (date x))) as [Hlt|Hge].
    + destruct (IH Hr Hsr) as (s & -> & Hperm & Hsorted).
      exists (y :: s). split_and!; [done | |].
      * rewrite Hperm. apply Permutation_swap.
      * apply StronglySorted_cons. split; [|done]. rewrite Hperm.
        constructor; [unfold older_eq; lia | done].
    + exists (x :: y :: r). split_and!; [done..|].
      apply StronglySorted_cons. split.
      * constructor; [done|]. eapply Forall_impl; [exact Hyr|].
        unfold older_eq. intros z Hz. lia.
      * by apply StronglySorted_cons.
Qed.

(** A sort that returns has put a permutation of its input in ascending
    order, which it can only do for timestamps of one kind. *)
Lemma sort_by_date_Ok l s :
  sort_by_date l = Ok s →
  s ≡ₚ l ∧ StronglySorted older_eq s ∧ same_kind l.
Proof.
  revert s. induction l as [|x r IH]; intros s; simpl.
  - intros [= <-]. split_and!; [done | constructor | by exists true].
  - munfold. destruct (sort_by_date r) as [s'|e]; [|discriminate].
    destruct (IH s' eq_refl) as (Hperm & Hsorted & k & Hk). intros Hins.
    destruct (decide (s' = [])) as [->|Hne].
    + apply Permutation_nil_l in Hperm as <-. simpl in Hins. injection Hins as <-.
      split_and!; [done | repeat constructor |].
      exists (aware (date x)). by constructor.
    + assert (Forall (λ y, aware (date y) = k) s') as Hk' by by rewrite Hperm.
      pose proof (insert_by_date_kind _ _ _ _ Hk' Hne Hins) as Hx.
      destruct (insert_by_date_sorted x s' k Hx Hk' Hsorted)
        as (s2 & Hins2 & Hperm2 & Hsorted2).
      rewrite Hins in Hins2. injection Hins2 as <-.
      split_and!; [by rewrite Hperm2, Hperm | done |].
      exists k. by constructor.
Qed.

Lemma sort_by_date_same_kind l :
  same_kind l → ∃ s, sort_by_date l = Ok s.
Proof.
  intros [k Hk]. induction l as [|x r IH]; simpl; [by eexists|].
  apply Forall_cons in Hk as [Hx Hr]. destruct (IH Hr) as [s' Hs'].
  munfold. rewrite Hs'.
  destruct (sort_by_date_Ok _ _ Hs') as (Hperm & Hsorted & _).
  assert (Forall (λ y, aware (date y) = k) s') as Hk' by by rewrite Hperm.
  destruct (insert_by_date_sorted x s' k Hx Hk' Hsorted) as (s & -> & _).
  by eexists.
Qed.

Lemma same_kind_reverse l : same_kind (reverse l) ↔ same_kind l.
Proof.
  unfold same_kind. split; intros [k Hk]; exists k.
  - by rewrite <- (reverse_Permutation l).
  - by rewrite reverse_Permutation.
Qed.

Lemma StronglySorted_reverse {A} (R : relation A) l :
  StronglySorted R l → StronglySorted (flip R) (reverse l).
Proof.
  induction 1 as [|x l Hs IH Hx]; [constructor|].
  rewrite reverse_cons. apply StronglySorted_app_2; [|done|repeat constructor].
  intros y z Hy Hz%list_elem_of_singleton. subst z.
  rewrite elem_of_reverse in Hy.
  rewrite Forall_forall in Hx. unfold flip. by apply Hx.
Qed.

(** The descending sort of the program: most recent first. *)
Lemma sort_by_date_reverse_Ok l s :
  sort_by_date_reverse l = Ok s →
  s ≡ₚ l ∧ StronglySorted (flip older_eq) s ∧ same_kind l.
Proof.
  unfold sort_by_date_reverse. munfold.
  destruct (sort_by_date (reverse l)) as [s'|e] eqn:Hs'; [|discriminate].
  intros [= <-]. apply sort_by_date_Ok in Hs' as (Hperm & Hsorted & Hkind).
  split_and!.
  - by rewrite reverse_Permutation, Hperm, reverse_Permutation.
  - by apply StronglySorted_reverse.
  - by apply same_kind_reverse.
Qed.

(** The sort raises exactly on a list that mixes naive and aware
    timestamps. *)
Lemma sort_by_date_reverse_defined l :
  (∃ s, sort_by_date_reverse l = Ok s) ↔ same_kind l.
Proof.
  split.
  - intros [s Hs]. by apply sort_by_date_reverse_Ok in Hs as (_ & _ & ?).
  - intros Hk%same_kind_reverse. apply sort_by_date_same_kind in Hk as [s' Hs'].
    unfold sort_by_date_reverse. munfold. rewrite Hs'. by eexists.
Qed.

(** The sort is stable: items with equal timestamps keep their relative
    order. *)
Lemma insert_by_date_stable x l s t :
  insert_by_date x l = Ok s →
  filter (λ z, stamp (date z) = t) s = filter (λ z, stamp (date z) = t) (x :: l).
Proof.
  revert s. induction l as [|y r IH]; intros s; simpl.
  - by intros [= <-].
  - munfold. destruct (dt_lt (date y) (date x)) as [lt|e] eqn:Hlt; [|discriminate].
    apply dt_lt_Ok in Hlt as [_ ->].
    destruct (Z.ltb_spec (stamp (date y)) (stamp (date x))) as [Hyx|Hxy].
    + destruct (insert_by_date x r) as [s'|e]; [|discriminate].
      intros [= <-]. rewrite (filter_cons _ y s'), (IH s' eq_refl).
      rewrite !filter_cons. repeat case_decide; try done; lia.
    + by intros [= <-].
Qed.

Lemma sort_by_date_stable l s t :
  sort_by_date l = Ok s →
  filter (λ z, stamp (date z) = t) s = filter (λ z, stamp (date z) = t) l.
Proof.
  revert s. induction l as [|x r IH]; intros s; simpl.
  - by intros [= <-].
  - munfold. destruct (sort_by_date r) as [s'|e]; [|discriminate].
    intros Hins. rewrite (insert_by_date_stable _ _ _ t Hins).
    rewrite !filter_cons. by rewrite (IH s' eq_refl).
Qed.

Lemma sort_by_date_reverse_stable l s t :
  sort_by_date_reverse l = Ok s →
  filter (λ z, stamp (date z) = t) s = filter (λ z, stamp (date z) = t) l.
Proof.
  unfold sort_by_date_reverse. munfold.
  destruct (sort_by_date (reverse l)) as [s'|e] eqn:Hs'; [|discriminate].
  intros [= <-]. rewrite filter_reverse, (sort_by_date_stable _ _ t Hs').
  by rewrite filter_reverse, reverse_involutive.
Qed.

Lemma same_kind_not_newer l x y :
  same_kind l → x ∈ l → y ∈ l → older_eq y x → not_newer y x.
Proof.
  intros [k Hk] Hx Hy Hle. rewrite Forall_forall in Hk.
  unfold not_newer. rewrite dt_lt_same by (rewrite (Hk x), (Hk y); done).
  f_equal. apply Z.ltb_ge. exact Hle.
Qed.

(** ** The main procedure *)

Lemma load_yaml_Ok path w cfg w' :
  load_yaml path w = (Ok cfg, w') →
  w' = w ∧ ∃ text, files w !! path = Some text ∧ yaml_safe_load text = Ok cfg.
Proof.
  unfold load_yaml, read_file. munfold.
  destruct (files w !! path) as [text|]; [|discriminate].
  intros [= Hy <-]. eauto.
Qed.

Lemma load_state_frame path w : (load_state path w).2 = w.
Proof.
  unfold load_state, path_exists, read_file. munfold.
  case_bool_decide as Hex; [|done].
  by destruct (files w !! path) as [text|].
Qed.

Lemma load_state_missing path w :
  files w !! path = None →
  load_state path w = (Ok (JObject (State (Some ∅) ∅)), w).
Proof.
  intros Hnone. unfold load_state, path_exists. munfold.
  rewrite bool_decide_eq_false_2; [done|]. rewrite Hnone. by intros [? ?].
Qed.

Lemma load_state_present path w text :
  files w !! path = Some text → load_state path w = (json_load text, w).
Proof.
  intros Hsome. unfold load_state, path_exists, read_file. munfold.
  rewrite bool_decide_eq_true_2 by (by rewrite Hsome). by rewrite Hsome.
Qed.

(** The world a successful run ends in. *)
Lemma main_Ok config_path out_path w :
  (main config_path out_path w).1 = Ok () →
  ∃ text cfg st sorted,
    files w !! config_path = Some text
    ∧ yaml_safe_load text = Ok cfg
    ∧ load_state (default "state.json" (cfg_state_file cfg)) w = (Ok (JObject st), w)
    ∧ sort_by_date_reverse
        (dedup (extracted (default [] (cfg_sources cfg)) w)
               ([], default ∅ (st_seen st))).1 = Ok sorted
    ∧ (main config_path out_path w).2 =
        let state_path := default "state.json" (cfg_state_file cfg) in
        let srcs := default [] (cfg_sources cfg) in
        let seen0 := default ∅ (st_seen st) in
        let seen := (dedup (extracted srcs w) ([], seen0)).2 in
        let w1 := (run_sources srcs ([], ∅) w).2 in
        let out := Py.slice_to (default 60 (cfg_limit cfg)) sorted in
        log_out (wrote_msg out_path (length out))
          (put_file state_path (json_dump (State (Some seen) (st_rest st)))
             (put_file out_path
                (etree_write (feed_tree (default ∅ (cfg_feed cfg))
                                        (utc (clock (ticks w1))) out))
                (tick w1))).
Proof.
  destruct (main config_path out_path w) as [r wf] eqn:Hmain. simpl.
  intros ->. unfold main in Hmain.
  apply bind_inv in Hmain as (cfg & w0 & Hcfg & Hmain).
  apply load_yaml_Ok in Hcfg as (-> & text & Htext & Hyaml).
  apply bind_inv in Hmain as (doc & w0 & Hdoc & Hmain).
  pose proof (load_state_frame (default "state.json" (cfg_state_file cfg)) w) as Hw.
  rewrite Hdoc in Hw. simpl in Hw. subst w0.
  apply bind_inv in Hmain as (st & w0 & Hst & Hmain).
  destruct doc as [st'|]; [|discriminate]. injection Hst as -> ->.
  apply bind_inv in Hmain as ([all_items seen] & w1 & Hrun & Hmain).
  rewrite run_sources_run in Hrun. injection Hrun as Hacc Hw1.
  apply bind_inv in Hmain as (sorted & w2 & Hsort & Hmain).
  unfold lift in Hsort. injection Hsort as Hsort ->.
  exists text, cfg, st, sorted. rewrite Hacc. simpl.
  split_and!; [done..|].
  unfold build_feed, save_state, write_file, print, now_utc in Hmain. munfold.
  destruct (open_w out_path); [|discriminate]. simpl in Hmain.
  destruct (open_w (default "state.json" (cfg_state_file cfg))); [|discriminate].
  injection Hmain as <-. by rewrite Hw1.
Qed.

(** A run that completes could open both files for writing. *)
Lemma main_Ok_open config_path out_path w text cfg :
  files w !! config_path = Some text →
  yaml_safe_load text = Ok cfg →
  (main config_path out_path w).1 = Ok () →
  open_w out_path = true
  ∧ open_w (default "state.json" (cfg_state_file cfg)) = true.
Proof.
  intros Htext Hyaml. unfold main.
  assert (load_yaml config_path w = (Ok cfg, w)) as Hy.
  { unfold load_yaml, read_file. munfold. by rewrite Htext, Hyaml. }
  rewrite (bind_ok _ _ _ _ _ Hy). munfold.
  destruct (load_state _ w) as [[doc|e] w0]; [|discriminate].
  destruct (as_dict doc w0) as [[st|e] w1]; [|discriminate].
  destruct (run_sources _ _ w1) as [[[all_items seen]|e] w2]; [|discriminate].
  destruct (sort_by_date_reverse all_items) as [sorted|e]; [|discriminate].
  unfold build_feed, save_state, write_file, print, now_utc. munfold.
  destruct (open_w out_path); [|discriminate]. simpl.
  by destruct (open_w (default "state.json" (cfg_state_file cfg))).
Qed.

Lemma build_feed_Ok channel_meta items out_path w :
  open_w out_path = true →
  build_feed channel_meta items out_path w =
    (Ok (),
     put_file out_path
       (etree_write (feed_tree channel_meta (utc (clock (ticks w))) items))
       (tick w)).
Proof.
  intros Hopen. unfold build_feed, write_file, now_utc. munfold.
  by rewrite Hopen.
Qed.

(** ** What the run persists *)

Lemma dedup_seen_old items all_items (seen : gmap string bool) g v :
  seen !! g = Some v → (dedup items (all_items, seen)).2 !! g = Some v.
Proof.
  revert all_items seen. induction items as [|it r IH]; intros all_items seen Hg.
  - done.
  - rewrite dedup_cons. destruct (decide (guid it ∈ dom seen)) as [Hin|Hout].
    + rewrite dedup_step_seen by done. by apply IH.
    + rewrite dedup_step_unseen by done. apply IH.
      rewrite lookup_insert_ne; [done|]. intros <-.
      apply Hout, elem_of_dom. by eexists.
Qed.

Lemma dedup_seen_kept items (seen : gmap string bool) it :
  it ∈ (dedup items ([], seen)).1 →
  (dedup items ([], seen)).2 !! guid it = Some true.
Proof.
  revert seen. induction items as [|x r IH]; intros seen.
  - by intros ?%elem_of_nil.
  - rewrite dedup_kept_cons, dedup_cons.
    destruct (decide (guid x ∈ dom seen)) as [Hin|Hout].
    + rewrite dedup_step_seen by done. apply IH.
    + rewrite dedup_step_unseen by done. rewrite (dedup_prefix r ([] ++ [x])).
      simpl. intros [->|Hr]%elem_of_cons; [|by apply IH].
      apply dedup_seen_old, lookup_insert_eq.
Qed.

Lemma dedup_dom_kept items (seen : gmap string bool) :
  dom (dedup items ([], seen)).2 =
    dom seen ∪ list_to_set (guid <$> (dedup items ([], seen)).1).
Proof.
  revert seen. induction items as [|x r IH]; intros seen.
  - rewrite dedup_nil. set_solver.
  - rewrite dedup_kept_cons, dedup_cons.
    destruct (decide (guid x ∈ dom seen)) as [Hin|Hout].
    + rewrite dedup_step_seen by done. apply IH.
    + rewrite dedup_step_unseen by done. rewrite (dedup_prefix r ([] ++ [x])).
      simpl. rewrite IH, dom_insert_L. set_solver.
Qed.

(** C4. After a successful run the state file holds the loaded state with
    its [seen] dictionary extended by the identifiers of all the items kept
    by the deduplication, whether or not the truncation to the limit left
    them in the feed: the dictionary does not depend on the limit. *)
Theorem persisted_seen_is_loaded_plus_kept config_path out_path w text cfg st :
  let state_path := default "state.json" (cfg_state_file cfg) in
  let seen0 := default ∅ (st_seen st) in
  let kept :=
    (dedup (extracted (default [] (cfg_sources cfg)) w) ([], seen0)).1 in
  files w !! config_path = Some text →
  yaml_safe_load text = Ok cfg →
  load_state state_path w = (Ok (JObject st), w) →
  (main config_path out_path w).1 = Ok () →
  ∃ seen sorted,
    files (main config_path out_path w).2 !! state_path =
      Some (json_dump (State (Some seen) (st_rest st)))
    ∧ dom seen = dom seen0 ∪ list_to_set (guid <$> kept)
    ∧ (∀ g v, seen0 !! g = Some v → seen !! g = Some v)
    ∧ (∀ it, it ∈ kept → seen !! guid it = Some true)
    ∧ sort_by_date_reverse kept = Ok sorted
    ∧ (∀ it, it ∈ sorted → guid it ∈ dom seen).
Proof.
  intros state_path seen0 kept Htext Hyaml Hload Hok.
  destruct (main_Ok _ _ _ Hok) as (text' & cfg' & st' & sorted & Hmain).
  destruct Hmain as (Htext' & Hyaml' & Hload' & Hsort & ->).
  assert (cfg' = cfg) as -> by congruence.
  assert (st' = st) as -> by (fold state_path in Hload'; congruence).
  eexists _, sorted. split_and!.
  - unfold log_out, put_file. simpl. apply lookup_insert_eq.
  - apply dedup_dom_kept.
  - intros g v. apply dedup_seen_old.
  - apply dedup_seen_kept.
  - done.
  - intros it Hit. apply sort_by_date_reverse_Ok in Hsort as (Hperm & _).
    rewrite Hperm in Hit. apply elem_of_dom. eexists. by apply dedup_seen_kept.
Qed.

(** The truncation of a run that completes: the kept items are put in descending
    order of timestamp (items with equal timestamps keeping their order)
    and the first [limit] of them (all of them when
    there are fewer; [limit] is 60 unless configured) are what [build_feed]
    receives: for [limit ≥ 0] no item left out is more recent than an item
    handed over. *)
Theorem truncation_keeps_most_recent config_path out_path w text cfg st :
  let state_path := default "state.json" (cfg_state_file cfg) in
  let kept :=
    (dedup (extracted (default [] (cfg_sources cfg)) w)
           ([], default ∅ (st_seen st))).1 in
  let limit := default 60 (cfg_limit cfg) in
  files w !! config_path = Some text →
  yaml_safe_load text = Ok cfg →
  load_state state_path w = (Ok (JObject st), w) →
  (main config_path out_path w).1 = Ok () →
  ∃ sorted w1 dump,
    let out := Py.slice_to limit sorted in
    sort_by_date_reverse kept = Ok sorted
    ∧ sorted ≡ₚ kept
    ∧ StronglySorted (flip older_eq) sorted
    ∧ (∀ t, filter (λ x, stamp (date x) = t) sorted =
            filter (λ x, stamp (date x) = t) kept)
    ∧ (main config_path out_path w).2 =
        log_out (wrote_msg out_path (length out))
          (put_file state_path dump
             (build_feed (default ∅ (cfg_feed cfg)) out out_path w1).2)
    ∧ (cfg_limit cfg = None → limit = 60)
    ∧ (0 ≤ limit →
         out = take (Z.to_nat limit) sorted
         ∧ length out = Nat.min (Z.to_nat limit) (length kept)
         ∧ out ++ drop (Z.to_nat limit) sorted ≡ₚ kept
         ∧ ∀ x y, x ∈ out → y ∈ drop (Z.to_nat limit) sorted → not_newer y x).
Proof.
  intros state_path kept limit Htext Hyaml Hload Hok.
  destruct (main_Ok _ _ _ Hok) as (text' & cfg' & st' & sorted & Hmain).
  destruct Hmain as (Htext' & Hyaml' & Hload' & Hsort & ->).
  assert (cfg' = cfg) as -> by congruence.
  assert (st' = st) as -> by (fold state_path in Hload'; congruence).
  exists sorted, (run_sources (default [] (cfg_sources cfg)) ([], ∅) w).2.
  eexists. cbn zeta.
  destruct (main_Ok_open _ _ _ _ _ Htext Hyaml Hok) as [Hopen _].
  rewrite (build_feed_Ok _ _ _ _ Hopen).
  destruct (sort_by_date_reverse_Ok _ _ Hsort) as (Hperm & Hsorted & Hkind).
  split_and!; [done | done | done | | reflexivity | | ].
  - intros t. by apply sort_by_date_reverse_stable.
  - unfold limit. by intros ->.
  - intros Hlimit. unfold Py.slice_to.
    rewrite (proj2 (Z.leb_le _ _) Hlimit). split_and!.
    + done.
    + by rewrite length_take, Hperm.
    + by rewrite take_drop.
    + intros x y Hx Hy.
      assert (same_kind sorted) as Hkind'.
      { destruct Hkind as [k Hk]. exists k. by rewrite Hperm. }
      apply (same_kind_not_newer sorted); [done | | |].
      * rewrite <- (take_drop (Z.to_nat limit) sorted).
        apply elem_of_app. by left.
      * rewrite <- (take_drop (Z.to_nat limit) sorted).
        apply elem_of_app. by right.
      * rewrite <- (take_drop (Z.to_nat limit) sorted) in Hsorted.
        by apply (StronglySorted_app_1_elem_of _ _ _ _ _ Hsorted).
Qed.

(** ** Sources that yield nothing *)

Lemma run_sources_cons src rest acc w acc' w' :
  process_source acc src w = (Ok acc', w') →
  run_sources (src :: rest) acc w = run_sources rest acc' w'.
Proof.
  intros Hp. unfold run_sources. cbn [for_fold].
  by rewrite (bind_ok _ _ _ _ _ Hp).
Qed.

Lemma extracted_skip src rest w e w0 w' :
  extract src w = (e, w0) →
  (∀ items, e ≠ Ok (Some items)) →
  (process_source ([], ∅) src w).2 = w' →
  extracted (src :: rest) w = extracted rest w'.
Proof.
  intros He Hno <-. cbn [extracted]. rewrite He.
  destruct e as [[items|]|err]; [by destruct (Hno items) | done..].
Qed.

(** ** Nothing depends on the error stream *)

Lemma same_but_stderr_refl w : same_but_stderr w w.
Proof. done. Qed.

Lemma blind_ret {A} (a : A) : blind (mret a : M A).
Proof.
  intros w1 w2 Hw. split; [done|]. split; [exact Hw|].
  exists []. by rewrite !app_nil_r.
Qed.

Lemma blind_raise {A} (e : exn) : blind (raise e : M A).
Proof.
  intros w1 w2 Hw. split; [done|]. split; [exact Hw|].
  exists []. by rewrite !app_nil_r.
Qed.

Lemma blind_lift {A} (r : res A) : blind (lift r).
Proof.
  intros w1 w2 Hw. split; [done|]. split; [exact Hw|].
  exists []. by rewrite !app_nil_r.
Qed.

Lemma blind_bind {A B} (m : M A) (f : A → M B) :
  blind m → (∀ a, blind (f a)) → blind (m ≫= f).
Proof.
  intros Hm Hf w1 w2 Hw.
  destruct (Hm w1 w2 Hw) as (Hr & Hw' & lines & H1 & H2). munfold.
  destruct (m w1) as [[a|e] w1'], (m w2) as [[a2|e2] w2']; simpl in *;
    try discriminate.
  - injection Hr as <-.
    destruct (Hf a w1' w2' Hw') as (Hr2 & Hw2 & lines2 & H3 & H4).
    split_and!; [done..|]. exists (lines ++ lines2).
    by rewrite H3, H4, H1, H2, !app_assoc.
  - injection Hr as <-. split_and!; [done..|]. by exists lines.
Qed.

Lemma blind_try {A} (body : M A) (handler : exn → M A) :
  blind body → (∀ e, blind (handler e)) → blind (try_except body handler).
Proof.
  intros Hm Hh w1 w2 Hw.
  destruct (Hm w1 w2 Hw) as (Hr & Hw' & lines & H1 & H2). munfold.
  destruct (body w1) as [[a|e] w1'], (body w2) as [[a2|e2] w2']; simpl in *;
    try discriminate.
  - injection Hr as <-. split_and!; [done..|]. by exists lines.
  - injection Hr as <-.
    destruct (Hh e w1' w2' Hw') as (Hr2 & Hw2 & lines2 & H3 & H4).
    split_and!; [done..|]. exists (lines ++ lines2).
    by rewrite H3, H4, H1, H2, !app_assoc.
Qed.

Lemma blind_collect {A B} (f : A → M (option B)) l :
  (∀ a, blind (f a)) → blind (collect f l).
Proof.
  intros Hf. induction l as [|a r IH]; simpl; [apply blind_ret|].
  apply blind_bind; [apply Hf|]. intros o.
  apply blind_bind; [apply IH|]. intros bs. apply blind_ret.
Qed.

Lemma blind_for_fold {A S} (f : S → A → M S) l :
  (∀ s a, blind (f s a)) → ∀ s, blind (for_fold f s l).
Proof.
  intros Hf. induction l as [|a r IH]; intros s; simpl; [apply blind_ret|].
  apply blind_bind; [apply Hf | apply IH].
Qed.

Lemma blind_now_utc : blind now_utc.
Proof.
  intros w1 w2 (Hf & Ho & Ht). unfold now_utc, tick, same_but_stderr. simpl.
  rewrite Ht. split_and!; [done..|]. exists []. by rewrite !app_nil_r.
Qed.

Lemma blind_eprint line : blind (eprint line).
Proof.
  intros w1 w2 (Hf & Ho & Ht). unfold eprint, log_err, same_but_stderr. simpl.
  split_and!; [done..|]. by exists [line].
Qed.

Lemma blind_print line : blind (print line).
Proof.
  intros w1 w2 (Hf & Ho & Ht). unfold print, log_out, same_but_stderr. simpl.
  rewrite Ho. split_and!; [done..|]. exists []. by rewrite !app_nil_r.
Qed.

Lemma blind_path_exists path : blind (path_exists path).
Proof.
  intros w1 w2 (Hf & Ho & Ht). unfold path_exists, same_but_stderr. simpl.
  rewrite Hf. split_and!; [done..|]. exists []. by rewrite !app_nil_r.
Qed.

Lemma blind_read_file path : blind (read_file path).
Proof.
  intros w1 w2 (Hf & Ho & Ht). unfold read_file, same_but_stderr. rewrite Hf.
  destruct (files w2 !! path); simpl; (split_and!; [done..|]);
    exists []; by rewrite !app_nil_r.
Qed.

Lemma blind_write_file path content : blind (write_file path content).
Proof.
  intros w1 w2 (Hf & Ho & Ht). unfold write_file, put_file, same_but_stderr.
  destruct (open_w path); simpl.
  - rewrite Hf. split_and!; [done..|]. exists []. by rewrite !app_nil_r.
  - split_and!; [done..|]. exists []. by rewrite !app_nil_r.
Qed.

Lemma blind_rss_entry e : blind (rss_entry e).
Proof.
  unfold rss_entry. apply blind_bind.
  - destruct (rss_date_text _ e) as [text|]; [|apply blind_now_utc].
    destruct (dateutil_parse text); [apply blind_ret | apply blind_now_utc].
  - intros dt. apply blind_ret.
Qed.

Lemma blind_parse_rss xml_text : blind (parse_rss xml_text).
Proof.
  unfold parse_rss. apply blind_collect. intros e.
  apply blind_bind; [apply blind_rss_entry|]. intros it. apply blind_ret.
Qed.

Lemma blind_html_block url cfg b : blind (html_block url cfg b).
Proof.
  unfold html_block. apply blind_bind.
  - destruct (html_date cfg b); [apply blind_ret | apply blind_now_utc].
  - intros dt. destruct (negb _); apply blind_ret.
Qed.

Lemma blind_parse_html url cfg : blind (parse_html url cfg).
Proof.
  unfold parse_html, fetch. apply blind_bind; [apply blind_lift|]. intros resp.
  destruct (negb _); [apply blind_raise|].
  apply blind_collect. intros b. apply blind_html_block.
Qed.

Lemma blind_extract src : blind (extract src).
Proof.
  unfold extract, fetch. repeat case_bool_decide.
  - apply blind_bind; [apply blind_lift|]. intros resp.
    apply blind_bind; [apply blind_parse_rss|]. intros items. apply blind_ret.
  - apply blind_bind; [apply blind_parse_html|]. intros items. apply blind_ret.
  - apply blind_bind; [apply blind_eprint|]. intros []. apply blind_ret.
Qed.

Lemma blind_process_source acc src : blind (process_source acc src).
Proof.
  unfold process_source. apply blind_try.
  - apply blind_bind; [apply blind_extract|].
    intros [items|]; apply blind_ret.
  - intros e. apply blind_bind; [apply blind_eprint|]. intros []. apply blind_ret.
Qed.

Lemma blind_run_sources srcs acc : blind (run_sources srcs acc).
Proof.
  unfold run_sources. apply blind_for_fold.
  intros s a. apply blind_process_source.
Qed.

Lemma blind_build_feed channel_meta items out_path :
  blind (build_feed channel_meta items out_path).
Proof.
  unfold build_feed. apply blind_bind; [apply blind_now_utc|].
  intros built. apply blind_write_file.
Qed.

(** What [main] does once the sources have been processed. *)
Lemma blind_finish cfg st out_path acc :
  blind
    (let '(all_items, seen) := acc in
     all_items ← lift (sort_by_date_reverse all_items);
     build_feed (default ∅ (cfg_feed cfg))
       (Py.slice_to (default 60 (cfg_limit cfg)) all_items) out_path;;
     save_state (default "state.json" (cfg_state_file cfg))
       (State (Some seen) (st_rest st));;
     print (wrote_msg out_path
              (length (Py.slice_to (default 60 (cfg_limit cfg)) all_items)))).
Proof.
  destruct acc as [all_items seen].
  apply blind_bind; [apply blind_lift|]. intros sorted.
  apply blind_bind; [apply blind_build_feed|]. intros [].
  apply blind_bind; [apply blind_write_file|]. intros [].
  apply blind_print.
Qed.

Lemma run_sources_app pre post acc w :
  run_sources (pre ++ post) acc w =
    run_sources post (dedup (extracted pre w) acc)
      (run_sources pre ([], ∅) w).2.
Proof.
  revert acc w. induction pre as [|src rest IH]; intros acc w; [done|].
  rewrite <- app_comm_cons.
  rewrite (run_sources_cons _ _ _ _ _ _ (process_source_run acc src w)).
  rewrite (run_sources_cons _ _ _ _ _ _ (process_source_run ([], ∅) src w)).
  rewrite IH. cbn [extracted]. rewrite dedup_app. f_equal.
  - by destruct (extract src w) as [[[items|]|e] w1].
  - by rewrite (run_sources_run rest (let (r, _) := extract src w in _)).
Qed.

Lemma run_sources_inert pre src post msg acc w :
  (∀ a w0, process_source a src w0 = (Ok a, log_err msg w0)) →
  (run_sources (pre ++ src :: post) acc w).1 = (run_sources (pre ++ post) acc w).1
  ∧ same_but_stderr (run_sources (pre ++ src :: post) acc w).2
                    (run_sources (pre ++ post) acc w).2
  ∧ ∃ before after,
      stderr (run_sources (pre ++ src :: post) acc w).2 =
        stderr w ++ before ++ [msg] ++ after
      ∧ stderr (run_sources (pre ++ post) acc w).2 = stderr w ++ before ++ after.
Proof.
  intros Hinert. rewrite !run_sources_app.
  rewrite (run_sources_cons _ _ _ _ _ _ (Hinert _ _)).
  destruct (blind_run_sources pre ([], ∅) w w (same_but_stderr_refl w))
    as (_ & _ & before & Hbefore & _).
  destruct (blind_run_sources post (dedup (extracted pre w) acc)
              (log_err msg (run_sources pre ([], ∅) w).2)
              (run_sources pre ([], ∅) w).2)
    as (Hr & Hw & after & H1 & H2); [done|].
  split_and!; [done..|]. exists before, after.
  rewrite H1, H2. unfold log_err. simpl. rewrite Hbefore.
  by rewrite <- !app_assoc.
Qed.

(** A source that only leaves a line on the error stream does not change
    the run otherwise. *)
Lemma inert_source_is_ignored src msg :
  (∀ a w0, process_source a src w0 = (Ok a, log_err msg w0)) →
  run_ignores src msg.
Proof.
  intros Hinert config_path config_path' out_path w text text' cfg pre post
    Htext Hyaml Hsrcs Htext' Hyaml'.
  assert (load_yaml config_path w = (Ok cfg, w)) as Hy.
  { unfold load_yaml, read_file. munfold. by rewrite Htext, Hyaml. }
  assert (load_yaml config_path' w =
            (Ok (Config (cfg_state_file cfg) (Some (pre ++ post)) (cfg_limit cfg)
                        (cfg_feed cfg)), w)) as Hy'.
  { unfold load_yaml, read_file. munfold. by rewrite Htext', Hyaml'. }
  unfold main. rewrite (bind_ok _ _ _ _ _ Hy), (bind_ok _ _ _ _ _ Hy').
  cbn [cfg_state_file cfg_sources cfg_limit cfg_feed]. rewrite Hsrcs.
  cbn [from_option id].
  pose proof (load_state_frame (default "state.json" (cfg_state_file cfg)) w) as Hs.
  destruct (load_state _ w) as [[doc|e] w0] eqn:Hload; simpl in Hs; subst w0.
  2:{ rewrite !(bind_raised _ _ _ _ _ Hload). by split_and!. }
  rewrite !(bind_ok _ _ _ _ _ Hload).
  destruct doc as [st|].
  2:{ assert (as_dict JValue w =
                (Raised (Exn AttributeError "object has no attribute 'get'"), w))
        as Hd by done.
      rewrite !(bind_raised _ _ _ _ _ Hd). by split_and!. }
  assert (as_dict (JObject st) w = (Ok st, w)) as Hd by done.
  rewrite !(bind_ok _ _ _ _ _ Hd).
  destruct (run_sources_inert pre src post msg ([], default ∅ (st_seen st)) w Hinert)
    as (Hr & Hw & before & after & H1 & H2).
  pose proof (run_sources_run (pre ++ src :: post) ([], default ∅ (st_seen st)) w)
    as E1.
  pose proof (run_sources_run (pre ++ post) ([], default ∅ (st_seen st)) w) as E2.
  rewrite E1 in Hr, Hw, H1. rewrite E2 in Hr, Hw, H2.
  cbn [fst snd] in Hr, Hw, H1, H2. injection Hr as Hr.
  rewrite (bind_ok _ _ _ _ _ E1), (bind_ok _ _ _ _ _ E2). rewrite Hr.
  destruct (blind_finish cfg st out_path
              (dedup (extracted (pre ++ post) w) ([], default ∅ (st_seen st)))
              _ _ Hw) as (Hres & (Hf & Ho & _) & lines & H3 & H4).
  split_and!; [exact Hres | exact Hf | exact Ho |].
  intros _. exists before, (after ++ lines).
  split.
  - etrans; [exact H3|]. rewrite H1. by rewrite <- !app_assoc.
  - etrans; [exact H4|]. rewrite H2. by rewrite <- !app_assoc.
Qed.

(** What follows for a source that [process_source] answers with one line
    on the error stream and nothing else. *)
Lemma skipped_source src msg rest acc w :
  (∀ a w0, process_source a src w0 = (Ok a, log_err msg w0)) →
  (∀ items, (extract src w).1 ≠ Ok (Some items)) →
  (process_source acc src w).1 = Ok acc
  ∧ stderr (process_source acc src w).2 = stderr w ++ [msg]
  ∧ files (process_source acc src w).2 = files w
  ∧ stdout (process_source acc src w).2 = stdout w
  ∧ ticks (process_source acc src w).2 = ticks w
  ∧ run_sources (src :: rest) acc w =
      run_sources rest acc (process_source acc src w).2
  ∧ extracted (src :: rest) w = extracted rest (process_source acc src w).2
  ∧ run_ignores src msg.
Proof.
  intros Hinert Hnone. rewrite (Hinert acc w). cbn [fst snd].
  split_and!; [done.. | by apply run_sources_cons | |].
  - destruct (extract src w) as [r w0] eqn:Hex.
    eapply extracted_skip; [exact Hex | | by rewrite Hinert].
    intros items. apply (Hnone items).
  - by apply inert_source_is_ignored.
Qed.

(** C10. A source whose type is neither [rss] nor [html] is skipped: the
    skip message is appended to the error stream and nothing else changes;
    nothing is fetched or raised, the accumulated items and the [seen]
    dictionary stay as they were, the loop goes on with the remaining
    sources, and the run ends as the run without that source does (it
    completes whenever that one completes, with the same files and the same
    standard output). *)
Theorem unknown_type_is_skipped src rest acc w :
  src !! "type" ≠ Some "rss" →
  src !! "type" ≠ Some "html" →
  let msg :=
    "Skipping " +:+ default "source" (src !! "name") +:+ ": unknown type '"
    +:+ Py.str (src !! "type") +:+ "'" in
  let w' := (process_source acc src w).2 in
  extract src w = (Ok None, w')
  ∧ (process_source acc src w).1 = Ok acc
  ∧ stderr w' = stderr w ++ [msg]
  ∧ files w' = files w
  ∧ stdout w' = stdout w
  ∧ ticks w' = ticks w
  ∧ run_sources (src :: rest) acc w = run_sources rest acc w'
  ∧ extracted (src :: rest) w = extracted rest w'
  ∧ run_ignores src msg.
Proof.
  intros Hrss Hhtml msg w'.
  assert (∀ w0, extract src w0 = (Ok None, log_err msg w0)) as Hex.
  { intros w0. unfold extract, eprint. munfold.
    by rewrite !bool_decide_eq_false_2. }
  assert (∀ a w0, process_source a src w0 = (Ok a, log_err msg w0)) as Hp.
  { intros a w0. unfold process_source. munfold. by rewrite Hex. }
  split.
  - unfold w'. by rewrite Hp, Hex.
  - apply skipped_source; [exact Hp|]. intros items. by rewrite Hex.
Qed.

(** C6, as the code has it. The page of an HTML source is fetched before
    its configuration is looked at. For a source without a (non-empty)
    [list_selector], [parse_html] therefore raises, before it looks at any
    block and without reading the clock, the [ValueError] for the missing
    selector when the page could be fetched, and the exception of the fetch
    when it could not. Either way the loop appends to the error stream a
    warning with the name of the source, its address and the message of the
    exception, and nothing else changes: the accumulated items and the
    [seen] dictionary stay as they were, the loop goes on with the remaining
    sources, and the run ends as the run without that source does (it
    completes whenever that one completes, with the same files and the same
    standard output). *)
Theorem html_without_list_selector_is_skipped src rest acc w :
  src !! "type" = Some "html" →
  Py.truthy (src !! "list_selector") = false →
  let e :=
    match requests_get (src !! "url") with
    | Ok _ => Exn ValueError "Missing list_selector for HTML source"
    | Raised fetch_error => fetch_error
    end in
  let msg :=
    "[WARN] Failed to process " +:+ default "source" (src !! "name") +:+ " ("
    +:+ Py.str (src !! "url") +:+ "): " +:+ exn_msg e in
  let w' := (process_source acc src w).2 in
  parse_html (src !! "url") src w = (Raised e, w)
  ∧ (process_source acc src w).1 = Ok acc
  ∧ stderr w' = stderr w ++ [msg]
  ∧ files w' = files w
  ∧ stdout w' = stdout w
  ∧ ticks w' = ticks w
  ∧ run_sources (src :: rest) acc w = run_sources rest acc w'
  ∧ extracted (src :: rest) w = extracted rest w'
  ∧ run_ignores src msg.
Proof.
  intros Htype Hsel e msg w'.
  assert (∀ w0, parse_html (src !! "url") src w0 = (Raised e, w0)) as Hparse.
  { intros w0. unfold parse_html, fetch, e. munfold.
    destruct (requests_get (src !! "url")) as [page|fetch_error]; simpl; [|done].
    by rewrite Hsel. }
  assert (∀ w0, extract src w0 = (Raised e, w0)) as Hex.
  { intros w0. unfold extract. munfold. rewrite Htype.
    rewrite bool_decide_eq_false_2 by done.
    rewrite bool_decide_eq_true_2 by done. by rewrite Hparse. }
  assert (∀ a w0, process_source a src w0 = (Ok a, log_err msg w0)) as Hp.
  { intros a w0. unfold process_source, eprint. munfold. by rewrite Hex. }
  split; [apply Hparse|].
  apply skipped_source; [exact Hp|]. intros items. by rewrite Hex.
Qed.

(** ** Identifiers and links *)

Lemma or_str_default o : Py.or_str o "" = default "" o.
Proof.
  destruct o as [s|]; simpl; [|done].
  by destruct (String.eqb_spec s "") as [->|].
Qed.

Lemma truthy_default o : Py.truthy o = negb (String.eqb (default "" o) "").
Proof. by destruct o. Qed.

Lemma first_nonempty_last s : first_nonempty [s] = s.
Proof. simpl. by destruct (String.eqb_spec s "") as [->|]. Qed.

Lemma or_chain a b d :
  Py.or_str (Py.or_ a b) d = first_nonempty [default "" a; default "" b; d].
Proof.
  change (first_nonempty [default "" a; default "" b; d])
    with (if String.eqb (default "" a) "" then
            if String.eqb (default "" b) "" then first_nonempty [d]
            else default "" b
          else default "" a).
  rewrite first_nonempty_last. unfold Py.or_. rewrite truthy_default.
  destruct a as [sa|]; simpl.
  - destruct (String.eqb_spec sa "") as [->|Ha]; simpl.
    + destruct b as [sb|]; simpl; [|done]. by destruct (String.eqb sb "").
    + by destruct (String.eqb_spec sa "").
  - destruct b as [sb|]; simpl; [|done]. by destruct (String.eqb sb "").
Qed.

Lemma first_nonempty_empty l : first_nonempty l = "" ↔ Forall (λ s, s = "") l.
Proof.
  induction l as [|s r IH]; simpl; [by split|].
  destruct (String.eqb_spec s "") as [->|Hs].
  - rewrite IH. split; [by constructor | by intros [_ ?]%Forall_cons].
  - split; [done | by intros [? _]%Forall_cons].
Qed.

Lemma prefix_nonempty n s : s ≠ "" → Py.prefix (S n) s ≠ "".
Proof. by destruct s. Qed.

Lemma html_guid_nonempty (t l : option string) :
  Py.truthy t || Py.truthy l = true →
  Py.or_str l (Py.prefix 80 (Py.or_str t "")) =
    first_nonempty [Py.or_str l ""; Py.prefix 80 (Py.or_str t "(untitled)")]
  ∧ Py.or_str l (Py.prefix 80 (Py.or_str t "")) ≠ "".
Proof.
  intros Hkeep.
  change (first_nonempty [?a; ?b])
    with (if String.eqb a "" then first_nonempty [b] else a).
  rewrite first_nonempty_last.
  destruct (Py.truthy l) eqn:Hl.
  - destruct l as [l|]; [|done]. simpl in *.
    destruct (String.eqb_spec l "") as [Heq|Hne]; [done|].
    by rewrite (proj2 (String.eqb_neq l "") Hne).
  - rewrite orb_false_r in Hkeep.
    assert (Py.or_str l "" = "") as Hl'.
    { rewrite or_str_default. rewrite truthy_default in Hl.
      apply negb_false_iff in Hl. by apply String.eqb_eq. }
    assert (∀ d, Py.or_str l d = d) as ->.
    { intros d. destruct l as [l|]; [|done]. simpl in *.
      apply negb_false_iff in Hl. by rewrite Hl. }
    rewrite Hl'. simpl.
    destruct t as [t|]; [|done]. simpl in *.
    destruct (String.eqb_spec t "") as [Heq|Hne]; [done|].
    split; [done | by apply prefix_nonempty].
Qed.

(** C3, as the code has it. The identifier of an item is the first
    non-empty value among the text of the entry's [id] (else [guid])
    element, the resolved link, and the first 80 characters of the title
    text found in the entry; the placeholder title is not used, so a
    syndication entry with none of the three gets the empty identifier. An
    item of an HTML source, which has no [id] field and is dropped when it
    has neither title nor link, never has an empty identifier. *)
Theorem identifier_is_first_nonempty_field :
  (∀ e w, ∃ it w',
      rss_entry e w = (Ok it, w')
      ∧ guid it =
          first_nonempty [ default "" (rss_guid e); link it;
                           Py.prefix 80 (default "" (rss_title e)) ]
      ∧ (guid it = "" ↔
           default "" (rss_guid e) = "" ∧ link it = ""
           ∧ default "" (rss_title e) = "")
      ∧ (default "" (rss_title e) ≠ "" → title it = default "" (rss_title e)))
  ∧ (∀ url cfg b w it w',
      html_block url cfg b w = (Ok (Some it), w') →
      guid it = first_nonempty [link it; Py.prefix 80 (title it)]
      ∧ guid it ≠ "").
Proof.
  split.
  - intros e w. destruct (rss_entry_run e w) as (dt & w' & -> & _).
    eexists _, _. split; [done|]. cbn [guid link title].
    rewrite !or_str_default, or_chain. split_and!.
    + done.
    + rewrite first_nonempty_empty, !Forall_cons, Forall_nil.
      split; [intros (? & ? & Hp & _) | intros (? & ? & Ht)].
      * split_and!; [done..|].
        destruct (decide (default "" (rss_title e) = "")) as [|Hne]; [done|].
        by destruct (prefix_nonempty 79 _ Hne).
      * split_and!; [done.. | by rewrite Ht | done].
    + intros Hne. destruct (rss_title e) as [t|]; simpl in *; [|done].
      by destruct (String.eqb_spec t "").
  - intros url cfg b w it w' Hb.
    destruct (html_block_run url cfg b w) as (dt & w1 & Hrun & _).
    rewrite Hrun in Hb. clear Hrun. injection Hb as Hb _.
    destruct (negb _) eqn:Hkeep; [discriminate|]. injection Hb as <-.
    cbn [guid link title]. apply negb_false_iff in Hkeep.
    by apply html_guid_nonempty.
Qed.

Lemma rss_first_link_default e :
  default "" (rss_first_link e) =
    match Soup.find "link" e with
    | Some link_tag =>
        Py.or_str (Soup.get "href" link_tag) (Soup.get_text "" link_tag)
    | None => ""
    end.
Proof.
  unfold rss_first_link, Py.or_.
  destruct (Soup.find "link" e) as [link_tag|]; [|done].
  destruct (Soup.get "href" link_tag) as [h|]; simpl; [|done].
  by destruct (String.eqb h "").
Qed.

Lemma pick_alternate (link : option string) (alt_href : option (option string)) :
  default ""
    (if negb (Py.truthy link) then
       match alt_href with
       | Some h => if Py.truthy h then h else link
       | None => link
       end
     else link) =
  first_nonempty
    [default "" link; match alt_href with Some h => default "" h | None => "" end].
Proof.
  change (first_nonempty [?a; ?b])
    with (if String.eqb a "" then first_nonempty [b] else a).
  rewrite first_nonempty_last, truthy_default.
  destruct (String.eqb_spec (default "" link) "") as [Heq|Hne]; simpl; [|done].
  destruct alt_href as [h|]; [|done].
  rewrite truthy_default.
  destruct (String.eqb_spec (default "" h) "") as [Hh|Hh]; simpl; [|done].
  by rewrite Heq, Hh.
Qed.

(** C8, as the code has it. The link of a syndication item is the [href]
    of the first [link] element of the entry, or else that element's text;
    only when this gives nothing is the [href] of a [link] element with
    [rel="alternate"] used. *)
Theorem link_is_first_link_then_alternate e w :
  ∃ it w',
    rss_entry e w = (Ok it, w')
    ∧ let first :=
        match Soup.find "link" e with
        | Some link_tag =>
            Py.or_str (Soup.get "href" link_tag) (Soup.get_text "" link_tag)
        | None => ""
        end in
      let alternate :=
        match Soup.find_with "link" "rel" "alternate" e with
        | Some alt => default "" (Soup.get "href" alt)
        | None => ""
        end in
      link it = first_nonempty [first; alternate].
Proof.
  destruct (rss_entry_run e w) as (dt & w' & -> & _).
  eexists _, _. split; [done|]. cbn [link]. cbv zeta.
  rewrite or_str_default, <- rss_first_link_default. unfold rss_link.
  destruct (Soup.find_with "link" "rel" "alternate" e) as [alt|].
  - apply (pick_alternate _ (Some (Soup.get "href" alt))).
  - apply (pick_alternate _ None).
Qed.

(** ** Dates of an HTML source *)

(** C7, as the code has it. When [date_format] is configured and the date
    text of a block does not match it, the tolerant parser is not tried:
    the timestamp is the reading of the clock, whatever the tolerant parser
    would make of the text. The block is not lost for it: nothing is raised,
    and the item is emitted exactly when it has a title or a link. *)
Theorem fixed_format_failure_yields_now url cfg b w text :
  Py.truthy (cfg !! "date_format") = true →
  html_date_text cfg b = Some text →
  text ≠ "" →
  datetime_strptime text (default "" (cfg !! "date_format")) = None →
  ∃ o,
    html_block url cfg b w = (Ok o, tick w)
    ∧ (o = None ↔
         Py.truthy (html_title cfg b) = false
         ∧ Py.truthy (html_link url cfg b) = false)
    ∧ (∀ it, o = Some it → date it = utc (clock (ticks w))).
Proof.
  intros Hfmt Htext Hne Hstrp.
  assert (html_date cfg b = None) as Hdate.
  { unfold html_date. rewrite Htext, Hfmt. simpl.
    by rewrite (proj2 (String.eqb_neq text "") Hne). }
  destruct (html_block_run url cfg b w) as (dt & w' & -> & Hcase).
  destruct Hcase as [[Hsome _] | (_ & -> & ->)]; [congruence|].
  eexists. split; [done|]. split.
  - destruct (Py.truthy (html_title cfg b)), (Py.truthy (html_link url cfg b));
      simpl; naive_solver.
  - intros it. destruct (negb _); [done|]. by intros [= <-].
Qed.

(** ** Loading the state *)

(** C9, as the code has it. A state file that exists and does not parse
    makes [load_state] raise the decoder's exception, and the run ends with
    it before any source is processed and without anything being written or
    printed; it is the missing state file that gives the empty [seen]
    dictionary. *)
Theorem corrupt_state_file_is_fatal config_path out_path w text cfg bad e :
  files w !! config_path = Some text →
  yaml_safe_load text = Ok cfg →
  files w !! default "state.json" (cfg_state_file cfg) = Some bad →
  json_load bad = Raised e →
  load_state (default "state.json" (cfg_state_file cfg)) w = (Raised e, w)
  ∧ main config_path out_path w = (Raised e, w)
  ∧ ∀ w0 : world,
      files w0 !! default "state.json" (cfg_state_file cfg) = None →
      load_state (default "state.json" (cfg_state_file cfg)) w0 =
        (Ok (JObject (State (Some ∅) ∅)), w0).
Proof.
  intros Hcfg Hyaml Hbad Hjson.
  assert (load_state (default "state.json" (cfg_state_file cfg)) w = (Raised e, w))
    as Hload.
  { rewrite (load_state_present _ _ _ Hbad). by rewrite Hjson. }
  split_and!; [done | | intros w0; apply load_state_missing].
  unfold main.
  assert (load_yaml config_path w = (Ok cfg, w)) as Hy.
  { unfold load_yaml, read_file. munfold. by rewrite Hcfg, Hyaml. }
  rewrite (bind_ok _ _ _ _ _ Hy).
  by rewrite (bind_raised _ _ _ _ _ Hload).
Qed.

End Properties.

(** * The properties on the concrete environment *)

Section Examples.
Import Fixture.
Local Existing Instance env.

(** C2. The extractors keep a parsed timestamp as the parser returns it, so
    a date without a zone gives a naive timestamp while a missing date gives
    an aware one; on site C the two meet in the sort, which raises
    [TypeError] outside any handler: the run ends without a feed and without
    a state file. *)
Theorem mixed_timestamps_abort_the_run :
  (∃ c1 c2,
      extracted [source_c] mixed_world = [c1; c2]
      ∧ tzinfo (date c1) = None
      ∧ tzinfo (date c2) = Some 0
      ∧ dt_lt (date c2) (date c1) = Raised (Exn TypeError naive_aware_msg))
  ∧ (main "sites.yaml" "feed.xml" mixed_world).1 =
      Raised (Exn TypeError naive_aware_msg)
  ∧ files (main "sites.yaml" "feed.xml" mixed_world).2 = files mixed_world
  ∧ stdout (main "sites.yaml" "feed.xml" mixed_world).2 = [].
Proof.
  split_and!.
  - eexists _, _. split_and!; [vm_compute; reflexivity | done..].
  - vm_compute. reflexivity.
  - vm_compute. reflexivity.
  - vm_compute. reflexivity.
Qed.

(** C5. On site C the two items kept by deduplication, one with a naive and
    one with an aware timestamp, are within the default limit of 60, but the
    sort of line 194 raises on them: the run ends there, [build_feed] is
    never reached and no feed file exists afterwards, so none of the kept
    items is handed to the feed writer. *)
Theorem mixed_timestamps_reach_no_feed :
  length (dedup (extracted [source_c] mixed_world) ([], ∅)).1 = 2%nat
  ∧ cfg_limit mixed = None
  ∧ 0 ≤ default 60 (cfg_limit mixed)
  ∧ sort_by_date_reverse (dedup (extracted [source_c] mixed_world) ([], ∅)).1 =
      Raised (Exn TypeError naive_aware_msg)
  ∧ (main "sites.yaml" "feed.xml" mixed_world).1 =
      Raised (Exn TypeError naive_aware_msg)
  ∧ files (main "sites.yaml" "feed.xml" mixed_world).2 !! "feed.xml" = None
  ∧ stdout (main "sites.yaml" "feed.xml" mixed_world).2 = [].
Proof.
  split_and!; try (vm_compute; reflexivity). vm_compute. discriminate.
Qed.

(** The page of [source_unfetched], an HTML source without a
    [list_selector], cannot be fetched: extraction fails with the error of
    the fetch, not with the configuration error, and the warning carries the
    text of the fetch error. *)
Lemma unfetched_page_hides_the_configuration_error :
  Fixture3.source_unfetched !! "type" = Some "html"
  ∧ Py.truthy (Fixture3.source_unfetched !! "list_selector") = false
  ∧ parse_html (Some "https://down.example/page") Fixture3.source_unfetched
      (world0 []) = (Raised connection_error, world0 [])
  ∧ exn_kind connection_error = RequestException
  ∧ exn_kind connection_error ≠ ValueError
  ∧ stderr (process_source ([], ∅) Fixture3.source_unfetched (world0 [])).2 =
      ["[WARN] Failed to process H (https://down.example/page): connection refused"].
Proof.
  split_and!; try (vm_compute; reflexivity). discriminate.
Qed.

(** The identifier of [bare_entry] is empty although its title is the
    placeholder. *)
Lemma bare_entry_has_empty_identifier :
  ∃ it w',
    rss_entry bare_entry (world0 []) = (Ok it, w')
    ∧ title it = "(untitled)"
    ∧ guid it = ""
    ∧ guid it ≠ first_nonempty [""; link it; Py.prefix 80 (title it)].
Proof.
  eexists _, _. split; [vm_compute; reflexivity|]. by split_and!.
Qed.

Lemma identifier_witness :
  ∃ it w',
    html_block (Some "https://b.example/news") source_b
      (article "B two" "b2" "2024-01-04T00:00:00+00:00") (world0 []) =
      (Ok (Some it), w')
    ∧ guid it = first_nonempty [link it; Py.prefix 80 (title it)]
    ∧ guid it ≠ "".
Proof.
  pose proof (proj2 identifier_is_first_nonempty_field
                (Some "https://b.example/news") source_b
                (article "B two" "b2" "2024-01-04T00:00:00+00:00") (world0 []))
    as Hid.
  destruct (html_block _ _ _ _) as [[[it|]|e] w'] eqn:Hrun;
    [| vm_compute in Hrun; discriminate..].
  exists it, w'. split; [reflexivity | by apply (Hid it w')].
Defined.

(** The link of [atom_entry] is its [self] link, not the alternate one. *)
Lemma atom_entry_link_is_not_the_alternate :
  ∃ alt it w',
    Soup.find_with "link" "rel" "alternate" atom_entry = Some alt
    ∧ Soup.get "href" alt = Some "https://a.example/post/1"
    ∧ rss_entry atom_entry (world0 []) = (Ok it, w')
    ∧ link it = "https://a.example/feed/1.atom".
Proof.
  eexists _, _, _. split_and!; [vm_compute; reflexivity | done | vm_compute; reflexivity | done].
Qed.

(** The date of [dated_block] does not match the configured format: the
    tolerant parser reads it, yet the timestamp of the item is the clock's. *)
Lemma dated_block_skips_tolerant_parse :
  ∃ d it w',
    html_date_text dated_cfg dated_block = Some "2024-01-05"
    ∧ datetime_strptime "2024-01-05" "%d/%m/%Y" = None
    ∧ dateutil_parse "2024-01-05" = Some d
    ∧ html_block (Some "https://b.example/news") dated_cfg dated_block (world0 []) =
        (Ok (Some it), w')
    ∧ date it = utc (clock 0)
    ∧ date it ≠ d.
Proof.
  eexists _, _, _.
  split_and!; [vm_compute; reflexivity | done | vm_compute; reflexivity
              | vm_compute; reflexivity | done | done].
Qed.

Lemma fixed_format_witness :
  ∃ o,
    html_block (Some "https://b.example/news") dated_cfg dated_block (world0 []) =
      (Ok o, tick (world0 []))
    ∧ ∀ it, o = Some it → date it = utc (clock 0).
Proof.
  destruct (fixed_format_failure_yields_now (Some "https://b.example/news")
              dated_cfg dated_block (world0 []) "2024-01-05")
    as (o & Hrun & _ & Hdate);
    [vm_compute; reflexivity | vm_compute; reflexivity | done | done |].
  exists o. split; [exact Hrun | exact Hdate].
Defined.

(** A state file that does not parse ends the run with the decoder's
    exception. *)
Lemma corrupt_state_aborts_the_run :
  files corrupt_world !! "state.json" = Some "{"
  ∧ json_load "{" = Raised decode_error
  ∧ load_state "state.json" corrupt_world = (Raised decode_error, corrupt_world)
  ∧ main "sites.yaml" "feed.xml" corrupt_world = (Raised decode_error, corrupt_world).
Proof.
  split_and!; [vm_compute; reflexivity | done | vm_compute; reflexivity..].
Qed.

Lemma corrupt_state_witness :
  main "sites.yaml" "feed.xml" corrupt_world = (Raised decode_error, corrupt_world).
Proof.
  apply (corrupt_state_file_is_fatal "sites.yaml" "feed.xml" corrupt_world
           sites_text sites "{" decode_error);
    [vm_compute; reflexivity | done | vm_compute; reflexivity | done].
Defined.

(** The scenario: three items of A and the new article of B are kept, the
    limit of two leaves [a2] and [a3] out of the feed, and all five
    identifiers are in the state file. *)
Lemma persisted_seen_witness :
  ∃ seen,
    files (main "sites.yaml" "feed.xml" scenario).2 !! "state.json" =
      Some (json_dump (State (Some seen) ∅))
    ∧ dom seen =
        {[ "https://b.example/b1"; "a1"; "a2"; "a3"; "https://b.example/b2" ]}.
Proof.
  destruct (persisted_seen_is_loaded_plus_kept "sites.yaml" "feed.xml" scenario
              sites_text sites state_b1)
    as (seen & sorted & Hfile & Hdom & _); [vm_compute; reflexivity..|].
  exists seen. split; [exact Hfile|]. rewrite Hdom. vm_compute. reflexivity.
Defined.

Lemma truncation_witness :
  ∃ sorted,
    sort_by_date_reverse
      (dedup (extracted [source_a; source_b] scenario)
             ([], {[ "https://b.example/b1" := true ]})).1 = Ok sorted
    ∧ guid <$> Py.slice_to 2 sorted = ["https://b.example/b2"; "a1"]
    ∧ guid <$> drop 2 sorted = ["a2"; "a3"]
    ∧ ∀ x y, x ∈ Py.slice_to 2 sorted → y ∈ drop 2 sorted → not_newer y x.
Proof.
  destruct (truncation_keeps_most_recent "sites.yaml" "feed.xml" scenario
              sites_text sites state_b1)
    as (sorted & w1 & dump & Hsort & _ & _ & _ & _ & _ & Hlimit);
    [vm_compute; reflexivity..|].
  destruct (Hlimit ltac:(done)) as (_ & _ & _ & Hrecent).
  exists sorted. split; [exact Hsort|]. split_and!; [| | exact Hrecent].
  - vm_compute in Hsort. injection Hsort as <-. vm_compute. reflexivity.
  - vm_compute in Hsort. injection Hsort as <-. vm_compute. reflexivity.
Defined.

End Examples.

(** * Further properties of the program *)

Section Isolation.
Context `{Env}.

(** ** The loop over the sources contains every failure *)

Lemma extract_stderr src w :
  stderr (extract src w).2 = stderr w
  ∨ (extract src w).1 = Ok None
    ∧ stderr (extract src w).2 =
        stderr w ++ [skip_msg (default "source" (src !! "name")) (src !! "type")].
Proof.
  unfold extract, fetch, eprint. munfold.
  repeat case_bool_decide.
  - left. destruct (requests_get _) as [page|e]; simpl; [|done].
    pose proof (parse_rss_frame page w) as (_ & He & _).
    by destruct (parse_rss page w) as [[items|e] w1].
  - left. pose proof (parse_html_frame (src !! "url") src w) as (_ & He & _).
    by destruct (parse_html _ src w) as [[items|e] w1].
  - by right.
Qed.

Lemma process_source_stderr acc src w :
  ∃ lines,
    stderr (process_source acc src w).2 = stderr w ++ lines
    ∧ (length lines ≤ 1)%nat.
Proof.
  unfold process_source, eprint. munfold.
  destruct (extract_stderr src w) as [Hsame | [Hnone Hskip]].
  - destruct (extract src w) as [[[items|]|e] w1]; simpl in *.
    + exists []. rewrite app_nil_r. split; [done | simpl; lia].
    + exists []. rewrite app_nil_r. split; [done | simpl; lia].
    + eexists [_]. rewrite Hsame. split; [done | simpl; lia].
  - destruct (extract src w) as [[[items|]|e] w1]; simpl in *; try done.
    eexists [_]. split; [done | simpl; lia].
Qed.

(** X1. Whatever the sources do, the loop over them returns: it writes no
    file and prints nothing on the standard output, and it adds at most one
    line per source to the error stream. *)
Theorem sources_loop_contains_failures srcs acc w :
  (run_sources srcs acc w).1 = Ok (dedup (extracted srcs w) acc)
  ∧ files (run_sources srcs acc w).2 = files w
  ∧ stdout (run_sources srcs acc w).2 = stdout w
  ∧ ∃ lines,
      stderr (run_sources srcs acc w).2 = stderr w ++ lines
      ∧ (length lines ≤ length srcs)%nat.
Proof.
  split_and!.
  - by rewrite run_sources_run.
  - apply run_sources_frame.
  - apply run_sources_frame.
  - revert acc w. induction srcs as [|src rest IH]; intros acc w.
    + exists []. by rewrite app_nil_r.
    + unfold run_sources in *. cbn [for_fold].
      rewrite (bind_ok _ _ _ _ _ (process_source_run acc src w)).
      destruct (IH (match extract src w with
                    | (Ok (Some items), _) => dedup items acc
                    | _ => acc
                    end) (process_source ([], ∅) src w).2)
        as (lines2 & -> & Hlen2).
      destruct (process_source_stderr ([], ∅) src w) as (lines1 & -> & Hlen1).
      exists (lines1 ++ lines2). split; [by rewrite app_assoc|].
      rewrite length_app. simpl. lia.
Qed.

(** X2. A feed or page that cannot be fetched costs the run one line on
    the error stream, a warning with the name of the source, its address and
    the message of the exception; nothing else changes: the accumulated
    items and the [seen] dictionary are untouched, the loop goes on with the
    remaining sources, and the run ends as the run without that source
    does. *)
Theorem failed_fetch_is_skipped src rest acc w e :
  src !! "type" = Some "rss" ∨ src !! "type" = Some "html" →
  requests_get (src !! "url") = Raised e →
  let msg :=
    "[WARN] Failed to process " +:+ default "source" (src !! "name") +:+ " ("
    +:+ Py.str (src !! "url") +:+ "): " +:+ exn_msg e in
  let w' := (process_source acc src w).2 in
  (process_source acc src w).1 = Ok acc
  ∧ stderr w' = stderr w ++ [msg]
  ∧ files w' = files w
  ∧ stdout w' = stdout w
  ∧ ticks w' = ticks w
  ∧ run_sources (src :: rest) acc w = run_sources rest acc w'
  ∧ extracted (src :: rest) w = extracted rest w'
  ∧ run_ignores src msg.
Proof.
  intros Htype Hget msg w'.
  assert (∀ w0, extract src w0 = (Raised e, w0)) as Hex.
  { intros w0. unfold extract, parse_html, fetch. munfold. rewrite Hget.
    destruct Htype as [-> | ->].
    - by rewrite bool_decide_eq_true_2.
    - rewrite bool_decide_eq_false_2 by done. by rewrite bool_decide_eq_true_2. }
  assert (∀ a w0, process_source a src w0 = (Ok a, log_err msg w0)) as Hp.
  { intros a w0. unfold process_source, eprint. munfold. by rewrite Hex. }
  apply skipped_source; [exact Hp|]. intros items. by rewrite Hex.
Qed.

End Isolation.

Section Extraction.
Context `{Env}.

(** ** What the extractors return *)

(** A loop that collects: the blocks for which [keep] holds give one result
    each, in order, and every iteration reads the clock at most once. *)
Lemma collect_filter {A B} (f : A → M (option B)) (keep : A → bool)
    (P : A → B → Prop) l :
  (∀ a w, ∃ o w',
      f a w = (Ok o, w')
      ∧ (if keep a then ∃ b, o = Some b ∧ P a b else o = None)
      ∧ clock_only w w'
      ∧ (ticks w ≤ ticks w' ≤ S (ticks w))%nat) →
  ∀ w, ∃ bs w',
    collect f l w = (Ok bs, w')
    ∧ Forall2 P (List.filter keep l) bs
    ∧ clock_only w w'
    ∧ (ticks w ≤ ticks w' ≤ ticks w + length l)%nat.
Proof.
  intros Hf. induction l as [|a r IH]; intros w; simpl.
  - exists [], w. munfold. split_and!; [done | constructor | done | lia | lia].
  - destruct (Hf a w) as (o & w1 & Ho & Hkeep & Hc1 & Ht1).
    destruct (IH w1) as (bs & w2 & Hbs & Hall & Hc2 & Ht2).
    munfold. rewrite Ho, Hbs.
    destruct (keep a).
    + destruct Hkeep as (b & -> & Hb). exists (b :: bs), w2.
      split_and!; [done | by constructor | by etrans | lia | lia].
    + subst o. exists bs, w2.
      split_and!; [done | done | by etrans | lia | lia].
Qed.

Lemma filter_all {A} (l : list A) : List.filter (λ _, true) l = l.
Proof. induction l as [|a r IH]; simpl; by rewrite ?IH. Qed.

Lemma or_str_nonempty o d : d ≠ "" → Py.or_str o d ≠ "".
Proof.
  intros Hd. destruct o as [s|]; simpl; [|done].
  by destruct (String.eqb_spec s "").
Qed.

(** X3. [parse_rss] never raises. It returns one item per [entry] or
    [item] element of the document, in document order, with the title,
    link and summary found in that element; no title is empty (an entry
    without one gets the placeholder). It touches nothing but the clock,
    which it reads at most once per entry. *)
Theorem parse_rss_one_item_per_entry xml_text w :
  let entries := Soup.find_all ["entry"; "item"] (bs4_xml xml_text) in
  ∃ items w',
    parse_rss xml_text w = (Ok items, w')
    ∧ length items = length entries
    ∧ Forall2 (λ e it,
                 title it = Py.or_str (rss_title e) "(untitled)"
                 ∧ link it = default "" (rss_link e)
                 ∧ summary it = rss_summary e) entries items
    ∧ Forall (λ it, title it ≠ "") items
    ∧ clock_only w w'
    ∧ (ticks w ≤ ticks w' ≤ ticks w + length entries)%nat.
Proof.
  intros entries. unfold parse_rss. fold entries.
  destruct (collect_filter (λ e, it ← rss_entry e; mret (Some it)) (λ _, true)
              (λ e it,
                 title it = Py.or_str (rss_title e) "(untitled)"
                 ∧ link it = default "" (rss_link e)
                 ∧ summary it = rss_summary e) entries) with (w := w)
    as (items & w' & Hrun & Hall & Hclock & Hticks).
  { intros e w0. destruct (rss_entry_run e w0) as (dt & w1 & He & Hw).
    munfold. rewrite He. eexists _, w1. split; [done|]. split_and!.
    - eexists. split; [done|]. cbn [title link summary].
      by rewrite or_str_default.
    - destruct Hw as [-> | ->]; [apply clock_only_refl | apply clock_only_tick].
    - destruct Hw as [-> | ->]; simpl; lia.
    - destruct Hw as [-> | ->]; simpl; lia. }
  rewrite filter_all in Hall. exists items, w'.
  split_and!; [done | symmetry; by eapply Forall2_length | done | | done | lia | lia].
  eapply Forall2_Forall_r; [exact Hall|]. apply Forall_forall.
  intros e _ it (-> & _). by apply or_str_nonempty.
Qed.


End Extraction.

Section Run.
Context `{Env}.

(** ** The footprint of a run *)

Lemma load_yaml_frame path w : (load_yaml path w).2 = w.
Proof.
  unfold load_yaml, read_file. munfold.
  by destruct (files w !! path) as [text|].
Qed.

Lemma as_dict_frame doc w : (as_dict doc w).2 = w.
Proof. by destruct doc. Qed.

(** A run that gets as far as the feed has written it before it turns to
    the state file. *)
Lemma main_reaches_feed config_path out_path w text cfg st sorted :
  files w !! config_path = Some text →
  yaml_safe_load text = Ok cfg →
  load_state (default "state.json" (cfg_state_file cfg)) w = (Ok (JObject st), w) →
  sort_by_date_reverse
    (dedup (extracted (default [] (cfg_sources cfg)) w)
           ([], default ∅ (st_seen st))).1 = Ok sorted →
  open_w out_path = true →
  main config_path out_path w =
    (save_state (default "state.json" (cfg_state_file cfg))
       (State
          (Some (dedup (extracted (default [] (cfg_sources cfg)) w)
                       ([], default ∅ (st_seen st))).2)
          (st_rest st));;
     print (wrote_msg out_path
              (length (Py.slice_to (default 60 (cfg_limit cfg)) sorted))))
      (put_file out_path
         (etree_write
            (feed_tree (default ∅ (cfg_feed cfg))
               (utc (clock (ticks (run_sources (default [] (cfg_sources cfg))
                                     ([], ∅) w).2)))
               (Py.slice_to (default 60 (cfg_limit cfg)) sorted)))
         (tick (run_sources (default [] (cfg_sources cfg)) ([], ∅) w).2)).
Proof.
  intros Htext Hyaml Hload Hsort Hopen. unfold main.
  assert (load_yaml config_path w = (Ok cfg, w)) as Hy.
  { unfold load_yaml, read_file. munfold. by rewrite Htext, Hyaml. }
  rewrite (bind_ok _ _ _ _ _ Hy).
  rewrite (bind_ok _ _ _ _ _ Hload).
  assert (as_dict (JObject st) w = (Ok st, w)) as Hst by done.
  rewrite (bind_ok _ _ _ _ _ Hst).
  rewrite (bind_ok _ _ _ _ _ (run_sources_run _ _ w)).
  destruct (dedup _ _) as [all_items seen] eqn:Hd. simpl in Hsort.
  assert (lift (sort_by_date_reverse all_items)
            (run_sources (default [] (cfg_sources cfg)) ([], ∅) w).2 =
          (Ok sorted, (run_sources (default [] (cfg_sources cfg)) ([], ∅) w).2))
    as Hl by (unfold lift; by rewrite Hsort).
  rewrite (bind_ok _ _ _ _ _ Hl).
  by rewrite (bind_ok _ _ _ _ _ (build_feed_Ok _ _ _ _ Hopen)).
Qed.

(** X5. A run that ends with an exception has printed nothing on the
    standard output and has changed no file, with one exception: when the
    feed could be written and the state file could not be opened, the run
    ends with the [OSError] of [save_state] and the feed file is the only
    file it has changed. The feed is then on the disk: whenever the
    configuration and the state were loaded, the sort returned and the feed
    file could be opened, the feed file of the failed run holds the feed of
    the sorted and truncated items. *)
Theorem failed_run_writes_at_most_the_feed config_path out_path w e :
  (main config_path out_path w).1 = Raised e →
  stdout (main config_path out_path w).2 = stdout w
  ∧ (files (main config_path out_path w).2 = files w
     ∨ ∃ text cfg content,
         files w !! config_path = Some text
         ∧ yaml_safe_load text = Ok cfg
         ∧ open_w out_path = true
         ∧ open_w (default "state.json" (cfg_state_file cfg)) = false
         ∧ exn_kind e = OSError
         ∧ files (main config_path out_path w).2 =
             <[out_path := content]> (files w))
  ∧ (∀ text cfg st sorted,
       files w !! config_path = Some text →
       yaml_safe_load text = Ok cfg →
       load_state (default "state.json" (cfg_state_file cfg)) w =
         (Ok (JObject st), w) →
       sort_by_date_reverse
         (dedup (extracted (default [] (cfg_sources cfg)) w)
                ([], default ∅ (st_seen st))).1 = Ok sorted →
       open_w out_path = true →
       e = Exn OSError ("No such file or directory: "
                        +:+ default "state.json" (cfg_state_file cfg))
       ∧ files (main config_path out_path w).2 !! out_path =
           Some (etree_write
                   (feed_tree (default ∅ (cfg_feed cfg))
                      (utc (clock (ticks (run_sources
                                            (default [] (cfg_sources cfg))
                                            ([], ∅) w).2)))
                      (Py.slice_to (default 60 (cfg_limit cfg)) sorted)))).
Proof.
  intros Hraised. apply and_assoc. split.
  - revert Hraised. unfold main. munfold.
    destruct (load_yaml config_path w) as [[cfg|e0] w0] eqn:Hy.
    2:{ pose proof (load_yaml_frame config_path w) as Hw.
        rewrite Hy in Hw. simpl in *. subst w0. by split; [|left]. }
    apply load_yaml_Ok in Hy as (-> & text & Htext & Hyaml).
    pose proof (load_state_frame (default "state.json" (cfg_state_file cfg)) w)
      as Hs.
    destruct (load_state _ w) as [[doc|e0] w0]; simpl in Hs; subst w0;
      [|by split; [|left]].
    destruct doc as [st|]; simpl; [|by split; [|left]].
    pose proof (run_sources_frame (default [] (cfg_sources cfg))
                  ([], default ∅ (st_seen st)) w) as [Hf Ho].
    destruct (run_sources _ _ w) as [[[all_items seen]|e0] w1]; simpl in *;
      [|by split; [|left]].
    destruct (sort_by_date_reverse all_items) as [sorted|e0]; simpl;
      [|by split; [|left]].
    unfold build_feed, save_state, write_file, print, now_utc. munfold.
    destruct (open_w out_path) eqn:Hout; simpl; [|by split; [|left]].
    destruct (open_w (default "state.json" (cfg_state_file cfg))) eqn:Hstate;
      simpl; [done|].
    intros [= <-]. split; [done|]. right.
    exists text, cfg. eexists. split_and!; [done.. |]. simpl. by rewrite Hf.
  - intros text cfg st sorted Htext Hyaml Hload Hsort Hopen.
    rewrite (main_reaches_feed _ _ _ _ _ _ _ Htext Hyaml Hload Hsort Hopen)
      in Hraised |- *.
    revert Hraised. unfold save_state, write_file, print. munfold.
    destruct (open_w (default "state.json" (cfg_state_file cfg)));
      simpl; [discriminate|].
    intros [= <-]. split; [done|]. apply lookup_insert_eq.
Qed.

Lemma main_Ok_with config_path out_path w text cfg st :
  files w !! config_path = Some text →
  yaml_safe_load text = Ok cfg →
  load_state (default "state.json" (cfg_state_file cfg)) w = (Ok (JObject st), w) →
  (main config_path out_path w).1 = Ok () →
  ∃ sorted,
    sort_by_date_reverse
      (dedup (extracted (default [] (cfg_sources cfg)) w)
             ([], default ∅ (st_seen st))).1 = Ok sorted
    ∧ (main config_path out_path w).2 =
        log_out
          (wrote_msg out_path
             (length (Py.slice_to (default 60 (cfg_limit cfg)) sorted)))
          (put_file (default "state.json" (cfg_state_file cfg))
             (json_dump
                (State
                   (Some (dedup (extracted (default [] (cfg_sources cfg)) w)
                                ([], default ∅ (st_seen st))).2)
                   (st_rest st)))
             (build_feed (default ∅ (cfg_feed cfg))
                (Py.slice_to (default 60 (cfg_limit cfg)) sorted) out_path
                (run_sources (default [] (cfg_sources cfg)) ([], ∅) w).2).2).
Proof.
  intros Htext Hyaml Hload Hok.
  destruct (main_Ok _ _ _ Hok) as (text' & cfg' & st' & sorted & Hmain).
  destruct Hmain as (Htext' & Hyaml' & Hload' & Hsort & ->).
  assert (cfg' = cfg) as -> by congruence.
  assert (st' = st) as -> by congruence.
  destruct (main_Ok_open _ _ _ _ _ Htext Hyaml Hok) as [Hopen _].
  exists sorted. by rewrite (build_feed_Ok _ _ _ _ Hopen).
Qed.

(** X6. A run that completes has written the feed file and the state file
    and no other; it has printed one line, which gives the path of the feed
    and the number of items in it. *)
Theorem successful_run_footprint config_path out_path w text cfg st :
  let state_path := default "state.json" (cfg_state_file cfg) in
  files w !! config_path = Some text →
  yaml_safe_load text = Ok cfg →
  load_state state_path w = (Ok (JObject st), w) →
  (main config_path out_path w).1 = Ok () →
  ∃ feed,
    let w' := (main config_path out_path w).2 in
    is_Some (files w' !! out_path)
    ∧ is_Some (files w' !! state_path)
    ∧ (∀ path, path ≠ out_path → path ≠ state_path →
         files w' !! path = files w !! path)
    ∧ (out_path ≠ state_path →
         files w' !! out_path =
           Some (etree_write (feed_tree (default ∅ (cfg_feed cfg)) feed.1 feed.2)))
    ∧ stdout w' =
        stdout w ++ ["Wrote " +:+ out_path +:+ " with "
                     +:+ pretty (length feed.2) +:+ " items."].
Proof.
  intros state_path Htext Hyaml Hload Hok.
  destruct (main_Ok_with _ _ _ _ _ _ Htext Hyaml Hload Hok) as (sorted & _ & ->).
  pose proof (run_sources_frame (default [] (cfg_sources cfg)) ([], ∅) w)
    as [Hf Ho].
  destruct (main_Ok_open _ _ _ _ _ Htext Hyaml Hok) as [Hopen _].
  rewrite (build_feed_Ok _ _ _ _ Hopen).
  eexists (_, _). cbn zeta.
  unfold log_out, put_file, tick. cbn [files stdout stderr ticks fst snd].
  split_and!.
  - destruct (decide (state_path = out_path)) as [<-|Hne].
    + rewrite lookup_insert_eq. by eexists.
    + rewrite lookup_insert_ne by done. rewrite lookup_insert_eq. by eexists.
  - fold state_path. rewrite lookup_insert_eq. by eexists.
  - intros path Hp1 Hp2. fold state_path.
    rewrite !lookup_insert_ne by done. by rewrite Hf.
  - intros Hne. fold state_path. rewrite lookup_insert_ne by done.
    by rewrite lookup_insert_eq.
  - by rewrite Ho.
Qed.

End Run.

Section Feed.
Context `{Env}.

(** ** What reaches the feed *)

Lemma slice_to_take {A} (k : Z) (l : list A) :
  ∃ n, Py.slice_to k l = take n l
       ∧ ((0 ≤ k → n = Z.to_nat k)
          ∧ (k < 0 → n = (length l - Z.to_nat (- k))%nat)).
Proof.
  unfold Py.slice_to. destruct (Z.leb_spec 0 k) as [Hk|Hk].
  - eexists. split; [done|]. split; [done | lia].
  - eexists. split; [done|]. split; [lia | done].
Qed.

(** X7. The items of the feed of a run that completes have pairwise
    distinct identifiers, none of which was in the [seen] dictionary the run
    loaded; this holds for every limit. *)
Theorem feed_identifiers_are_new_and_distinct config_path out_path w text cfg st :
  let state_path := default "state.json" (cfg_state_file cfg) in
  let seen0 := default ∅ (st_seen st) in
  files w !! config_path = Some text →
  yaml_safe_load text = Ok cfg →
  load_state state_path w = (Ok (JObject st), w) →
  (main config_path out_path w).1 = Ok () →
  ∃ out w1 dump,
    (main config_path out_path w).2 =
      log_out (wrote_msg out_path (length out))
        (put_file state_path dump
           (build_feed (default ∅ (cfg_feed cfg)) out out_path w1).2)
    ∧ NoDup (guid <$> out)
    ∧ (∀ it, it ∈ out → guid it ∉ dom seen0)
    ∧ (∀ it, it ∈ out → it ∈ extracted (default [] (cfg_sources cfg)) w).
Proof.
  intros state_path seen0 Htext Hyaml Hload Hok.
  destruct (main_Ok_with _ _ _ _ _ _ Htext Hyaml Hload Hok) as (sorted & Hsort & ->).
  eexists _, _, _. split; [reflexivity|].
  apply sort_by_date_reverse_Ok in Hsort as (Hperm & _ & _).
  destruct (slice_to_take (default 60 (cfg_limit cfg)) sorted) as (n & -> & _).
  assert (∀ it, it ∈ take n sorted →
            it ∈ (dedup (extracted (default [] (cfg_sources cfg)) w)
                        ([], seen0)).1) as Hin.
  { intros it Hit. unfold seen0. rewrite <- Hperm.
    rewrite <- (take_drop n sorted). apply elem_of_app. by left. }
  split_and!.
  - apply (sublist_NoDup _ (guid <$> sorted)).
    + rewrite Hperm. apply dedup_kept_NoDup.
    + rewrite fmap_take. apply sublist_take.
  - intros it Hit. by eapply dedup_kept_fresh, Hin.
  - intros it Hit. apply Hin in Hit.
    eapply elem_of_sublist; [exact Hit | apply dedup_kept_sublist].
Qed.

(** X8. Whatever the limit, negative ones included, the feed is an initial
    segment of the kept items in descending order of timestamp, so that no
    item left out is more recent than an item of the feed; a negative limit
    leaves out that many of the oldest items, and the limit 0 all of them. *)
Theorem truncation_for_any_limit config_path out_path w text cfg st :
  let state_path := default "state.json" (cfg_state_file cfg) in
  let kept :=
    (dedup (extracted (default [] (cfg_sources cfg)) w)
           ([], default ∅ (st_seen st))).1 in
  let limit := default 60 (cfg_limit cfg) in
  files w !! config_path = Some text →
  yaml_safe_load text = Ok cfg →
  load_state state_path w = (Ok (JObject st), w) →
  (main config_path out_path w).1 = Ok () →
  ∃ out rest w1 dump,
    (main config_path out_path w).2 =
      log_out (wrote_msg out_path (length out))
        (put_file state_path dump
           (build_feed (default ∅ (cfg_feed cfg)) out out_path w1).2)
    ∧ sort_by_date_reverse kept = Ok (out ++ rest)
    ∧ (∀ x y, x ∈ out → y ∈ rest → not_newer y x)
    ∧ (limit < 0 → length rest = Nat.min (Z.to_nat (- limit)) (length kept))
    ∧ (limit = 0 → out = []).
Proof.
  intros state_path kept limit Htext Hyaml Hload Hok.
  destruct (main_Ok_with _ _ _ _ _ _ Htext Hyaml Hload Hok) as (sorted & Hsort & ->).
  fold kept limit in Hsort |- *.
  destruct (slice_to_take limit sorted) as (n & Hn & Hpos & Hneg).
  exists (Py.slice_to limit sorted), (drop n sorted). eexists _, _.
  split; [reflexivity|]. rewrite Hn, take_drop.
  destruct (sort_by_date_reverse_Ok _ _ Hsort) as (Hperm & Hsorted & Hkind).
  split_and!.
  - done.
  - intros x y Hx Hy.
    assert (same_kind sorted) as Hkind'.
    { destruct Hkind as [k Hk]. exists k. by rewrite Hperm. }
    apply (same_kind_not_newer sorted); [done | | |].
    + rewrite <- (take_drop n sorted). apply elem_of_app. by left.
    + rewrite <- (take_drop n sorted). apply elem_of_app. by right.
    + rewrite <- (take_drop n sorted) in Hsorted.
      by apply (StronglySorted_app_1_elem_of _ _ _ _ _ Hsorted).
  - intros Hlt. rewrite length_drop, (Hneg Hlt), <- Hperm. lia.
  - intros H0. rewrite (Hpos ltac:(lia)), H0. done.
Qed.

(** ** The state file *)

(** X10. A state file that holds valid JSON which is not an object (a
    list, a number) ends the run with [AttributeError] when [seen] is
    looked up: no source is processed and nothing is written. *)
Theorem non_object_state_is_fatal config_path out_path w text cfg content :
  files w !! config_path = Some text →
  yaml_safe_load text = Ok cfg →
  files w !! default "state.json" (cfg_state_file cfg) = Some content →
  json_load content = Ok JValue →
  ∃ e, main config_path out_path w = (Raised e, w) ∧ exn_kind e = AttributeError.
Proof.
  intros Hcfg Hyaml Hfile Hjson.
  assert (load_yaml config_path w = (Ok cfg, w)) as Hy.
  { unfold load_yaml, read_file. munfold. by rewrite Hcfg, Hyaml. }
  assert (load_state (default "state.json" (cfg_state_file cfg)) w = (Ok JValue, w))
    as Hload.
  { rewrite (load_state_present _ _ _ Hfile). by rewrite Hjson. }
  eexists. split.
  - unfold main.
    rewrite (bind_ok _ _ _ _ _ Hy), (bind_ok _ _ _ _ _ Hload).
    by apply bind_raised.
  - reflexivity.
Qed.

End Feed.

Section Rerun.
Context `{Env}.

(** ** Deduplication over time *)

Lemma dedup_all_seen items all_items (seen : gmap string bool) :
  (∀ it, it ∈ items → guid it ∈ dom seen) →
  dedup items (all_items, seen) = (all_items, seen).
Proof.
  induction items as [|it r IH]; intros Hall; [done|].
  rewrite dedup_cons, dedup_step_seen.
  - apply IH. intros x Hx. apply Hall. by right.
  - apply Hall. by left.
Qed.

(** X11. Items whose identifiers are all in [seen] leave the accumulated
    list and the dictionary as they are; in particular a list of items that
    is processed a second time (a source configured twice, a feed that
    repeats itself) adds nothing. *)
Theorem dedup_is_idempotent items all_items (seen : gmap string bool) :
  (∀ others,
      (∀ it, it ∈ others → guid it ∈ dom seen) →
      dedup others (all_items, seen) = (all_items, seen))
  ∧ dedup (items ++ items) (all_items, seen) = dedup items (all_items, seen).
Proof.
  split; [intros others; apply dedup_all_seen|].
  rewrite dedup_app.
  destruct (dedup items (all_items, seen)) as [all1 seen1] eqn:Hd.
  apply dedup_all_seen. intros it Hit.
  assert (seen1 = (dedup items (all_items, seen)).2) as -> by by rewrite Hd.
  rewrite dedup_dom. apply elem_of_union. right.
  apply elem_of_list_to_set, list_elem_of_fmap. by exists it.
Qed.


(** ** Sorting what is sorted *)

Lemma sort_by_date_sorted l k :
  Forall (λ x, aware (date x) = k) l →
  StronglySorted older_eq l →
  sort_by_date l = Ok l.
Proof.
  induction l as [|x r IH]; intros Hk Hs; [done|].
  apply Forall_cons in Hk as [Hx Hr].
  apply StronglySorted_cons in Hs as [Hxr Hsr].
  simpl. rewrite (IH Hr Hsr). munfold.
  destruct r as [|y r']; [done|]. simpl.
  apply Forall_cons in Hr as [Hy _]. apply Forall_cons in Hxr as [Hxy _].
  rewrite dt_lt_same by congruence. munfold.
  by rewrite (proj2 (Z.ltb_ge _ _) Hxy).
Qed.

(** X13. The sort does nothing to a list that is in descending order of
    timestamp, so sorting is idempotent: the sorted list, sorted again, is
    itself. *)
Theorem sorting_is_idempotent l s :
  sort_by_date_reverse l = Ok s →
  sort_by_date_reverse s = Ok s.
Proof.
  intros Hsort. apply sort_by_date_reverse_Ok in Hsort as (Hperm & Hsorted & Hkind).
  destruct Hkind as [k Hk]. rewrite <- Hperm in Hk.
  unfold sort_by_date_reverse. munfold.
  rewrite (sort_by_date_sorted (reverse s) k).
  - by rewrite reverse_involutive.
  - by rewrite reverse_Permutation.
  - apply (StronglySorted_reverse (flip older_eq)) in Hsorted. exact Hsorted.
Qed.

End Rerun.

Section Reading.
Context `{Env}.

(** ** The timestamp of a syndication entry *)

Lemma rss_date_text_find tags e :
  rss_date_text tags e =
    (λ hit, match Soup.find hit.2 e with
            | Some t => Soup.get_text "" t
            | None => ""
            end)
    <$> list_find
          (λ tag, match Soup.find tag e with
                  | Some t => Soup.get_text "" t
                  | None => ""
                  end ≠ "") tags.
Proof.
  induction tags as [|tag rest IH]; [done|].
  cbn [rss_date_text list_find]. rewrite IH.
  destruct (Soup.find tag e) as [t|] eqn:Hfind; cbn beta iota.
  - destruct (decide (Soup.get_text "" t ≠ "")) as [Hne|Heq].
    + unfold Py.truthy. rewrite (proj2 (String.eqb_neq _ _) Hne).
      simpl. by rewrite Hfind.
    + apply dec_stable in Heq. unfold Py.truthy. rewrite Heq. simpl.
      by destruct (list_find _ rest) as [[i hit]|].
  - destruct (decide ("" ≠ "")) as [Hne|_]; [done|].
    by destruct (list_find _ rest) as [[i hit]|].
Qed.

(** X14. The timestamp of a syndication entry comes from the first of
    [published], [updated], [pubDate], [dc:date], [date] whose element has a
    non-empty text (an empty element does not hide a later one). If the
    parser reads that text, the item carries the parsed value as it is and
    the clock is not read; if the parser raises, or no such element exists,
    the item carries the reading of the clock. In no case is the entry
    lost. *)
Theorem rss_timestamp_of_first_dated_tag e w :
  let text_of tag :=
    match Soup.find tag e with
    | Some t => Soup.get_text "" t
    | None => ""
    end in
  ∃ it w',
    rss_entry e w = (Ok it, w')
    ∧ match list_find (λ tag, text_of tag ≠ "")
              ["published"; "updated"; "pubDate"; "dc:date"; "date"] with
      | Some (_, tag) =>
          match dateutil_parse (text_of tag) with
          | Some d => date it = d ∧ w' = w
          | None => date it = utc (clock (ticks w)) ∧ w' = tick w
          end
      | None => date it = utc (clock (ticks w)) ∧ w' = tick w
      end.
Proof.
  intros text_of. subst text_of. unfold rss_entry. rewrite rss_date_text_find.
  munfold. destruct (list_find _ _) as [[i tag]|]; simpl.
  - destruct (dateutil_parse _) as [d|]; simpl; by eexists _, _.
  - by eexists _, _.
Qed.

(** ** Reading back a written feed *)

Lemma get_text_single sep nm attrs s :
  Soup.get_text sep (Tag nm attrs [Text s]) = Py.strip s.
Proof.
  unfold Soup.get_text. simpl.
  by destruct (String.eqb_spec (Py.strip s) "") as [->|].
Qed.

Lemma feed_item_fields it :
  rss_title (feed_item it) = Some (Py.strip (title it))
  ∧ rss_link (feed_item it) = Some (Py.strip (link it))
  ∧ rss_guid (feed_item it) = Some (Py.strip (guid it))
  ∧ rss_summary (feed_item it) = Py.strip (summary it).
Proof.
  unfold rss_title, rss_link, rss_first_link, rss_guid, rss_summary.
  assert (Soup.find "title" (feed_item it) = Some (Tag "title" [] [Text (title it)]))
    as -> by reflexivity.
  assert (Soup.find "link" (feed_item it) = Some (Tag "link" [] [Text (link it)]))
    as -> by reflexivity.
  assert (Soup.find "id" (feed_item it) = None) as -> by reflexivity.
  assert (Soup.find "guid" (feed_item it) = Some (Tag "guid" [] [Text (guid it)]))
    as -> by reflexivity.
  assert (Soup.find_any ["summary"; "content"; "description"] (feed_item it) =
            Some (Tag "description" [] [Text (summary it)])) as -> by reflexivity.
  assert (Soup.find_with "link" "rel" "alternate" (feed_item it) = None)
    as -> by reflexivity.
  rewrite !get_text_single. split_and!; [done | | done | done].
  unfold Py.or_. simpl. by destruct (negb _).
Qed.

Lemma feed_item_reparsed it w :
  Py.strip (title it) = title it → title it ≠ "" →
  Py.strip (link it) = link it →
  Py.strip (guid it) = guid it → guid it ≠ "" →
  Py.strip (summary it) = summary it →
  ∃ it' w',
    rss_entry (feed_item it) w = (Ok it', w')
    ∧ title it' = title it ∧ link it' = link it
    ∧ guid it' = guid it ∧ summary it' = summary it.
Proof.
  intros Ht Htne Hl Hg Hgne Hs.
  destruct (rss_entry_run (feed_item it) w) as (dt & w' & -> & _).
  destruct (feed_item_fields it) as (-> & -> & -> & ->).
  rewrite Ht, Hl, Hg, Hs. eexists _, _. split; [done|].
  cbn [title link guid summary]. unfold Py.or_, Py.or_str, Py.truthy.
  rewrite (proj2 (String.eqb_neq _ _) Htne), (proj2 (String.eqb_neq _ _) Hgne).
  simpl. rewrite (proj2 (String.eqb_neq _ _) Hgne).
  split_and!; [done | | done | done].
  by destruct (String.eqb_spec (link it) "") as [Heq|Hne].
Qed.

Lemma feed_tree_entries channel_meta built items :
  Soup.find_all ["entry"; "item"]
    (Tag "[document]" [] [feed_tree channel_meta built items]) =
  feed_item <$> items.
Proof.
  unfold Soup.find_all, feed_tree.
  cbn [Soup.descendants flat_map]. rewrite !app_nil_r.
  rewrite !flat_map_app.
  change (List.filter ?f (?a :: ?b :: ?l)) with (List.filter f l).
  rewrite !List.filter_app.
  assert (List.filter (Soup.named ["entry"; "item"])
            (flat_map (λ k, k :: Soup.descendants k) (channel_fields channel_meta))
          = []) as ->.
  { unfold channel_fields. simpl.
    destruct (channel_meta !! "title"), (channel_meta !! "link"),
      (channel_meta !! "description"), (channel_meta !! "language"),
      (channel_meta !! "ttl"); reflexivity. }
  assert (List.filter (Soup.named ["entry"; "item"])
            (flat_map (λ k, k :: Soup.descendants k)
               [Tag "lastBuildDate" [] [Text (rfc822 built)]]) = [])
    as -> by reflexivity.
  simpl. induction items as [|it r IH]; [done|].
  rewrite fmap_cons. cbn [flat_map]. rewrite List.filter_app, IH.
  reflexivity.
Qed.

(** X15. A feed written by [build_feed] and given back to [parse_rss]
    yields one item per item written, in order, with the same title, link,
    identifier and summary, provided none of these has white space at
    either end and neither the title nor the identifier is empty. (The
    document read is assumed to be the tree that was written.) *)
Theorem written_feed_reads_back xml_text channel_meta built items w :
  bs4_xml xml_text = Tag "[document]" [] [feed_tree channel_meta built items] →
  Forall (λ it,
            Py.strip (title it) = title it ∧ title it ≠ ""
            ∧ Py.strip (link it) = link it
            ∧ Py.strip (guid it) = guid it ∧ guid it ≠ ""
            ∧ Py.strip (summary it) = summary it) items →
  ∃ items' w',
    parse_rss xml_text w = (Ok items', w')
    ∧ Forall2 (λ it it',
                 title it' = title it ∧ link it' = link it
                 ∧ guid it' = guid it ∧ summary it' = summary it) items items'.
Proof.
  intros Hdoc Hclean. unfold parse_rss. rewrite Hdoc, feed_tree_entries.
  clear Hdoc. revert w. induction Hclean as [|it r Hit Hr IH]; intros w.
  - exists [], w. split; [done | constructor].
  - destruct Hit as (Ht & Htne & Hl & Hg & Hgne & Hs).
    destruct (feed_item_reparsed it w Ht Htne Hl Hg Hgne Hs)
      as (it' & w1 & Hrun & Hsame).
    destruct (IH w1) as (items' & w2 & Hrest & Hall).
    exists (it' :: items'), w2. split; [|by constructor].
    rewrite fmap_cons. cbn [collect]. munfold. by rewrite Hrun, Hrest.
Qed.

End Reading.

Section Edges.
Context `{Env}.

(** ** Edge cases *)



(** X17. With no source configured (the [sources] key absent, or an empty
    list) and both files writable, the run completes: the feed file holds a
    channel without items, dated by the clock; the state file holds the
    loaded state with its [seen] dictionary, the empty one when the state
    had none; no other file changes; the only line printed is the one that
    reports 0 items. *)
Theorem run_without_sources config_path out_path w text cfg st :
  let state_path := default "state.json" (cfg_state_file cfg) in
  files w !! config_path = Some text →
  yaml_safe_load text = Ok cfg →
  default [] (cfg_sources cfg) = [] →
  load_state state_path w = (Ok (JObject st), w) →
  open_w out_path = true →
  open_w state_path = true →
  (main config_path out_path w).1 = Ok ()
  ∧ files (main config_path out_path w).2 !! state_path =
      Some (json_dump (State (Some (default ∅ (st_seen st))) (st_rest st)))
  ∧ (out_path ≠ state_path →
       files (main config_path out_path w).2 !! out_path =
         Some (etree_write
                 (Tag "rss" [("version", "2.0")]
                    [ Tag "channel" []
                        (channel_fields (default ∅ (cfg_feed cfg))
                         ++ [Tag "lastBuildDate" []
                               [Text (format_datetime (utc (clock (ticks w))))]]) ])))
  ∧ (∀ path, path ≠ out_path → path ≠ state_path →
       files (main config_path out_path w).2 !! path = files w !! path)
  ∧ stdout (main config_path out_path w).2 =
      stdout w ++ ["Wrote " +:+ out_path +:+ " with 0 items."]
  ∧ stderr (main config_path out_path w).2 = stderr w.
Proof.
  intros state_path Htext Hyaml Hnone Hload Hout Hstate.
  assert (load_yaml config_path w = (Ok cfg, w)) as Hy.
  { unfold load_yaml, read_file. munfold. by rewrite Htext, Hyaml. }
  assert (main config_path out_path w =
            (Ok (),
             log_out ("Wrote " +:+ out_path +:+ " with 0 items.")
               (put_file state_path
                  (json_dump (State (Some (default ∅ (st_seen st))) (st_rest st)))
                  (put_file out_path
                     (etree_write
                        (Tag "rss" [("version", "2.0")]
                           [ Tag "channel" []
                               (channel_fields (default ∅ (cfg_feed cfg))
                                ++ [Tag "lastBuildDate" []
                                      [Text (format_datetime
                                               (utc (clock (ticks w))))]]) ]))
                     (tick w))))) as ->.
  { unfold main. rewrite (bind_ok _ _ _ _ _ Hy), (bind_ok _ _ _ _ _ Hload).
    rewrite Hnone. munfold. simpl.
    assert (∀ k, Py.slice_to k (@nil item) = []) as ->.
    { intros k. unfold Py.slice_to. destruct (0 <=? k); by rewrite take_nil. }
    unfold build_feed, save_state, write_file, print, now_utc. munfold.
    rewrite Hout. simpl. fold state_path. rewrite Hstate.
    unfold feed_tree, rfc822. simpl. done. }
  unfold log_out, put_file, tick. cbn [fst snd files stdout stderr].
  split_and!.
  - done.
  - apply lookup_insert_eq.
  - intros Hne. rewrite lookup_insert_ne by done. apply lookup_insert_eq.
  - intros path Hp1 Hp2. by rewrite !lookup_insert_ne.
  - done.
  - done.
Qed.

(** X18. A configuration file that does not exist ends the run with
    [OSError] before anything else happens. *)
Theorem missing_configuration_is_fatal config_path out_path w :
  files w !! config_path = None →
  ∃ e, main config_path out_path w = (Raised e, w) ∧ exn_kind e = OSError.
Proof.
  intros Hnone. eexists. split.
  - unfold main. apply bind_raised. unfold load_yaml. apply bind_raised.
    unfold read_file. by rewrite Hnone.
  - reflexivity.
Qed.

(** X19. [rfc822] renders a naive timestamp as the UTC timestamp with the
    same calendar fields and an aware one as it is: the formatter is never
    given a naive value, and two timestamps that differ only in that one is
    naive and the other is in UTC are rendered alike. *)
Theorem rfc822_takes_naive_for_utc d :
  (∃ d', rfc822 d = format_datetime d'
         ∧ aware d' = true
         ∧ wall d' = wall d
         ∧ (aware d = true → d' = d))
  ∧ rfc822 (Datetime (wall d) None) = rfc822 (utc (wall d)).
Proof.
  split; [|done]. unfold rfc822, aware.
  destruct d as [t [off|]]; simpl.
  - exists (Datetime t (Some off)). by split_and!.
  - exists (utc t). split_and!; [done..|]. intros [=].
Qed.

End Edges.

(** * The further properties on the concrete environments *)

Section MoreExamples.
Import Fixture Fixture2 Fixture3.

Lemma unknown_type_witness :
  stderr (process_source (H := env3) ([], ∅) source_e (world0 [])).2 =
    ["Skipping E: unknown type 'json'"]
  ∧ (main (H := env3) "with.yaml" "feed.xml" (two_configurations with_e_text)).1 =
      Ok ()
  ∧ files (main (H := env3) "with.yaml" "feed.xml"
             (two_configurations with_e_text)).2 =
      files (main (H := env3) "sites.yaml" "feed.xml"
               (two_configurations with_e_text)).2.
Proof.
  destruct (unknown_type_is_skipped (H := env3) source_e [] ([], ∅) (world0 []))
    as (_ & _ & Herr & _ & _ & _ & _ & _ & Hignore); [vm_compute; discriminate..|].
  split; [rewrite Herr; vm_compute; reflexivity|].
  destruct (Hignore "with.yaml" "sites.yaml" "feed.xml"
              (two_configurations with_e_text) with_e_text sites_text
              (sites_with source_e) [source_a] [source_b])
    as (Hres & Hfiles & _); [vm_compute; reflexivity..|].
  split; [rewrite Hres; vm_compute; reflexivity | exact Hfiles].
Defined.

Lemma missing_list_selector_witness :
  stderr (process_source (H := env3) ([], ∅) source_d (world0 [])).2 =
    [ "[WARN] Failed to process D (https://b.example/news): "
      +:+ "Missing list_selector for HTML source" ]
  ∧ (main (H := env3) "with.yaml" "feed.xml" (two_configurations with_d_text)).1 =
      Ok ()
  ∧ files (main (H := env3) "with.yaml" "feed.xml"
             (two_configurations with_d_text)).2 =
      files (main (H := env3) "sites.yaml" "feed.xml"
               (two_configurations with_d_text)).2.
Proof.
  destruct (html_without_list_selector_is_skipped (H := env3) source_d []
              ([], ∅) (world0 []))
    as (_ & _ & Herr & _ & _ & _ & _ & _ & Hignore); [vm_compute; reflexivity..|].
  split; [rewrite Herr; vm_compute; reflexivity|].
  destruct (Hignore "with.yaml" "sites.yaml" "feed.xml"
              (two_configurations with_d_text) with_d_text sites_text
              (sites_with source_d) [source_a] [source_b])
    as (Hres & Hfiles & _); [vm_compute; reflexivity..|].
  split; [rewrite Hres; vm_compute; reflexivity | exact Hfiles].
Defined.

Lemma failed_fetch_witness :
  stderr (process_source (H := env3) ([], ∅) source_down (world0 [])).2 =
    [ "[WARN] Failed to process Down (https://down.example/feed): "
      +:+ "connection refused" ]
  ∧ (main (H := env3) "with.yaml" "feed.xml"
       (two_configurations with_down_text)).1 = Ok ()
  ∧ files (main (H := env3) "with.yaml" "feed.xml"
             (two_configurations with_down_text)).2 =
      files (main (H := env3) "sites.yaml" "feed.xml"
               (two_configurations with_down_text)).2.
Proof.
  destruct (failed_fetch_is_skipped (H := env3) source_down [] ([], ∅) (world0 [])
              connection_error)
    as (_ & Herr & _ & _ & _ & _ & _ & Hignore);
    [left; vm_compute; reflexivity | vm_compute; reflexivity |].
  split; [rewrite Herr; vm_compute; reflexivity|].
  destruct (Hignore "with.yaml" "sites.yaml" "feed.xml"
              (two_configurations with_down_text) with_down_text sites_text
              (sites_with source_down) [source_a] [source_b])
    as (Hres & Hfiles & _); [vm_compute; reflexivity..|].
  split; [rewrite Hres; vm_compute; reflexivity | exact Hfiles].
Defined.


Lemma failed_run_witness :
  (main (H := env3) "sites.yaml" "feed.xml" lost_state_world).1 =
    Raised (Exn OSError "No such file or directory: missing/state.json")
  ∧ files (main (H := env3) "sites.yaml" "feed.xml" lost_state_world).2
      !! "feed.xml" =
      Some (@etree_write env3
              (feed_tree (H := env3) ∅ (utc (@clock env3 0)) []))
  ∧ stdout (main (H := env3) "sites.yaml" "feed.xml" lost_state_world).2 = [].
Proof.
  destruct (failed_run_writes_at_most_the_feed (H := env3) "sites.yaml" "feed.xml"
              lost_state_world
              (Exn OSError "No such file or directory: missing/state.json"))
    as (Hout & _ & Hfeed); [vm_compute; reflexivity|].
  split; [vm_compute; reflexivity|]. split; [|exact Hout].
  destruct (Hfeed lost_state_text lost_state (State (Some ∅) ∅) [])
    as [_ Hfile]; [vm_compute; reflexivity..|].
  exact Hfile.
Defined.

Lemma footprint_witness :
  ∃ feed : datetime * list item,
    is_Some (files (main (H := env) "sites.yaml" "feed.xml" scenario).2 !! "feed.xml")
    ∧ files (main (H := env) "sites.yaml" "feed.xml" scenario).2 !! "sites.yaml" =
        files scenario !! "sites.yaml"
    ∧ stdout (main (H := env) "sites.yaml" "feed.xml" scenario).2 =
        stdout scenario ++ ["Wrote feed.xml with " +:+ pretty (length feed.2)
                            +:+ " items."].
Proof.
  destruct (successful_run_footprint (H := env) "sites.yaml" "feed.xml" scenario
              sites_text sites state_b1)
    as (feed & Hfeed & _ & Hother & _ & Hout); [vm_compute; reflexivity..|].
  exists feed. split; [exact Hfeed|]. split; [|exact Hout].
  by apply Hother.
Defined.

Lemma feed_identifiers_witness :
  ∃ out w1 dump,
    (main (H := env) "sites.yaml" "feed.xml" scenario).2 =
      log_out (wrote_msg "feed.xml" (length out))
        (put_file "state.json" dump
           (build_feed (H := env) ∅ out "feed.xml" w1).2)
    ∧ NoDup (guid <$> out)
    ∧ ∀ it, it ∈ out → guid it ∉ dom ({[ "https://b.example/b1" := true ]} : gmap string bool).
Proof.
  destruct (feed_identifiers_are_new_and_distinct (H := env) "sites.yaml" "feed.xml"
              scenario sites_text sites state_b1)
    as (out & w1 & dump & Hrun & Hnodup & Hnew & _); [vm_compute; reflexivity..|].
  exists out, w1, dump. split; [exact Hrun|]. split; [exact Hnodup | exact Hnew].
Defined.

Lemma negative_limit_witness :
  ∃ out rest,
    sort_by_date_reverse
      (dedup (extracted (H := env2) [source_a; source_b] trimmed_world)
             ([], {[ "https://b.example/b1" := true ]})).1 = Ok (out ++ rest)
    ∧ length rest = 1%nat
    ∧ ∀ x y, x ∈ out → y ∈ rest → not_newer y x.
Proof.
  destruct (truncation_for_any_limit (H := env2) "sites.yaml" "feed.xml"
              trimmed_world trimmed_text trimmed state_b1)
    as (out & rest & w1 & dump & _ & Hsort & Hrecent & Hneg & _);
    [vm_compute; reflexivity..|].
  exists out, rest. split; [exact Hsort|]. split; [|exact Hrecent].
  rewrite (Hneg ltac:(done)). vm_compute. reflexivity.
Defined.

Lemma non_object_state_witness :
  ∃ e,
    main (H := env2) "sites.yaml" "feed.xml" list_state_world =
      (Raised e, list_state_world)
    ∧ exn_kind e = AttributeError.
Proof.
  apply (non_object_state_is_fatal (H := env2) "sites.yaml" "feed.xml"
           list_state_world sites_text sites "[]");
    vm_compute; reflexivity.
Defined.


Lemma sorting_idempotent_witness :
  ∃ s,
    sort_by_date_reverse (extracted (H := env) [source_a; source_b] scenario) = Ok s
    ∧ sort_by_date_reverse s = Ok s.
Proof.
  destruct (sort_by_date_reverse (extracted (H := env) [source_a; source_b] scenario))
    as [s|e] eqn:Hsort; [|vm_compute in Hsort; discriminate].
  exists s. split; [reflexivity|].
  by apply (sorting_is_idempotent
              (extracted (H := env) [source_a; source_b] scenario)).
Defined.

Lemma written_feed_witness :
  ∃ items' w',
    parse_rss (H := env2) written_text (world0 []) = (Ok items', w')
    ∧ Forall2 (λ it it',
                 title it' = title it ∧ link it' = link it
                 ∧ guid it' = guid it ∧ summary it' = summary it)
        scenario_out items'.
Proof.
  apply (written_feed_reads_back (H := env2) written_text ∅
           (utc 1717200000000000) scenario_out (world0 [])).
  - vm_compute. reflexivity.
  - repeat apply Forall_cons_2; [| | apply Forall_nil_2];
      (split_and!; [vm_compute; reflexivity | discriminate
                   | vm_compute; reflexivity | vm_compute; reflexivity
                   | discriminate | vm_compute; reflexivity]).
Defined.


Lemma run_without_sources_witness :
  (main (H := env) "sites.yaml" "feed.xml" first_run_world).1 = Ok ()
  ∧ files (main (H := env) "sites.yaml" "feed.xml" first_run_world).2
      !! "state.json" = Some (@json_dump env (State (Some ∅) ∅))
  ∧ stdout (main (H := env) "sites.yaml" "feed.xml" first_run_world).2 =
      ["Wrote feed.xml with 0 items."].
Proof.
  destruct (run_without_sources (H := env) "sites.yaml" "feed.xml" first_run_world
              no_sources_text no_sources (State (Some ∅) ∅))
    as (Hok & Hstate & _ & _ & Hout & _); [vm_compute; reflexivity..|].
  split; [exact Hok|]. split; [exact Hstate | exact Hout].
Defined.

Lemma missing_configuration_witness :
  ∃ e,
    main (H := env) "sites.yaml" "feed.xml" (world0 []) = (Raised e, world0 [])
    ∧ exn_kind e = OSError.
Proof.
  apply (missing_configuration_is_fatal (H := env) "sites.yaml" "feed.xml" (world0 [])).
  vm_compute. reflexivity.
Defined.

End MoreExamples.
